(** * A crawl engine: shallow embedding of [web_scraper.py]

    The script crawls a site breadth-first from a seed URL.  Its engine is
    made of [is_valid_url], [get_domain], [scrape_page], [process_queue] and
    the handler of the "Start Scraping" button.  The engine is embedded below
    as executable definitions, on top of a model of the library calls it
    makes:

    - [urllib.parse] ([urlparse], [urljoin]) is modelled after CPython 3.11;
    - the [bs4] tree API ([find_all], [decompose], [title], [string],
      [get_text]) is modelled on an explicit document tree;
    - the network ([requests.get]) and the HTML parser are taken as
      parameters, gathered in the record [World].

    Python strings are modelled by [string]; characters are therefore
    restricted to the code points 0..255. *)

From Stdlib Require Import ZArith Lia Ascii String List.
From stdpp Require Import base strings gmap list.

Open Scope Z_scope.
Open Scope nat_scope.

(** ** Exceptions *)

(** A Python computation either returns or raises; [Raise] carries [str(e)]. *)
Inductive res (A : Type) : Type :=
  | Ok (a : A)
  | Raise (msg : string).
Arguments Ok {A} a.
Arguments Raise {A} msg.

#[global] Instance res_ret : MRet res := fun A a => Ok a.
#[global] Instance res_bind : MBind res := fun A B k m =>
  match m with
  | Ok a => k a
  | Raise e => Raise e
  end.

(** ** Python string operations *)

Module PyStr.

Definition code (c : ascii) : N := N_of_ascii c.

(** [c.isascii() and c.isalpha()] *)
Definition is_ascii_alpha (c : ascii) : bool :=
  ((65 <=? code c) && (code c <=? 90) || (97 <=? code c) && (code c <=? 122))%N.

Definition is_digit (c : ascii) : bool :=
  ((48 <=? code c) && (code c <=? 57))%N.

(** [str.isspace] on the code points below 256. *)
Definition isspace (c : ascii) : bool :=
  ((9 <=? code c) && (code c <=? 13) || (28 <=? code c) && (code c <=? 32)
   || (code c =? 133) || (code c =? 160))%N.

Definition lower_char (c : ascii) : ascii :=
  if ((65 <=? code c) && (code c <=? 90))%N then ascii_of_N (code c + 32) else c.

Fixpoint lower (s : string) : string :=
  match s with
  | EmptyString => EmptyString
  | String c s' => String (lower_char c) (lower s')
  end.

Fixpoint forallb (p : ascii -> bool) (s : string) : bool :=
  match s with
  | EmptyString => true
  | String c s' => p c && forallb p s'
  end.

(** [c in s] *)
Fixpoint contains (c : ascii) (s : string) : bool :=
  match s with
  | EmptyString => false
  | String d s' => if Ascii.eqb c d then true else contains c s'
  end.

(** [s.replace(c, "")] for every [c] selected by [p] *)
Fixpoint remove (p : ascii -> bool) (s : string) : string :=
  match s with
  | EmptyString => EmptyString
  | String c s' => if p c then remove p s' else String c (remove p s')
  end.

(** [s.lstrip(chars)], [s.rstrip(chars)], [s.strip(chars)] where [p] decides
    membership in [chars] *)
Fixpoint lstrip (p : ascii -> bool) (s : string) : string :=
  match s with
  | EmptyString => EmptyString
  | String c s' => if p c then lstrip p s' else s
  end.

Definition rstrip (p : ascii -> bool) (s : string) : string :=
  String.rev (lstrip p (String.rev s)).

Definition strip (p : ascii -> bool) (s : string) : string :=
  rstrip p (lstrip p s).

(** [s[:n]] and [s[n:]] *)
Fixpoint take (n : nat) (s : string) : string :=
  match n, s with
  | S n', String c s' => String c (take n' s')
  | _, _ => EmptyString
  end.

Fixpoint drop (n : nat) (s : string) : string :=
  match n, s with
  | S n', String _ s' => drop n' s'
  | _, _ => s
  end.

(** The longest prefix without a character selected by [p], and the rest
    (which starts at the first selected character, if any). *)
Fixpoint break (p : ascii -> bool) (s : string) : string * string :=
  match s with
  | EmptyString => (EmptyString, EmptyString)
  | String c s' =>
      if p c then (EmptyString, s)
      else let '(a, b) := break p s' in (String c a, b)
  end.

(** [s.partition(c)]: [Some (before, after)] at the first [c], [None] when
    [c] does not occur (Python then returns [(s, '', '')]). *)
Definition partition (c : ascii) (s : string) : option (string * string) :=
  match break (Ascii.eqb c) s with
  | (a, String _ b) => Some (a, b)
  | (_, EmptyString) => None
  end.

(** [s.rpartition(c)]: [Some (before, after)] at the last [c], [None] when
    [c] does not occur (Python then returns [('', '', s)]). *)
Definition rpartition (c : ascii) (s : string) : option (string * string) :=
  match partition c (String.rev s) with
  | Some (a, b) => Some (String.rev b, String.rev a)
  | None => None
  end.

(** [s.split(c)]: never the empty list. *)
Fixpoint split (c : ascii) (s : string) : list string :=
  match s with
  | EmptyString => [EmptyString]
  | String d s' =>
      if Ascii.eqb c d then EmptyString :: split c s'
      else match split c s' with
           | w :: ws => String d w :: ws
           | [] => [String d EmptyString]
           end
  end.

(** [sep.join(l)] *)
Fixpoint join (sep : string) (l : list string) : string :=
  match l with
  | [] => EmptyString
  | [w] => w
  | w :: ws => w +:+ sep +:+ join sep ws
  end.

Definition startswith (p s : string) : bool :=
  String.eqb (take (String.length p) s) p.

Definition is_empty (s : string) : bool :=
  match s with EmptyString => true | _ => false end.

(** Truth value of a string: [bool(s)] *)
Definition truthy (s : string) : bool := negb (is_empty s).

End PyStr.

(** ** Documents, responses and the outside world *)

(** A parsed document as [bs4] exposes it.  [NavigableString] stands for the
    string classes that count as text ([NavigableString], [CData]);
    [Comment] for the string classes that do not ([Comment], [Doctype],
    [Declaration], [ProcessingInstruction]).  [attrs] is the attribute
    dictionary of a tag: a key occurs once. *)
#[warnings="-register-all"]
Inductive node : Type :=
  | Tag (name : string) (attrs : list (string * string)) (contents : list node)
  | NavigableString (s : string)
  | Comment (s : string).

(** The [BeautifulSoup] object is the list of the top-level nodes. *)
Definition soup : Type := list node.

(** The part of [requests.Response] that the script reads. *)
Module Requests.
Record response : Type := mkResponse {
  content : string;
  status_code : Z
}.
End Requests.

(** What the script gets from outside.
    - [requests_get url]: [requests.get(url, headers=..., timeout=10)];
    - [http_error_msg r]: [str] of the [HTTPError] that [raise_for_status]
      raises on [r];
    - [html_parser body]: [BeautifulSoup(body, 'html.parser')];
    - [check_bracketed_host], [checknetloc_nfkc]: the two checks of
      [urllib.parse] that need the [ipaddress], [re] and [unicodedata]
      modules. *)
Record World : Type := mkWorld {
  requests_get : string -> res Requests.response;
  http_error_msg : Requests.response -> string;
  html_parser : string -> res soup;
  check_bracketed_host : string -> res unit;
  checknetloc_nfkc : string -> res unit
}.

(** ** [urllib.parse] *)

Module Urllib.

Record SplitResult : Type := mkSplit {
  s_scheme : string; s_netloc : string; s_path : string;
  s_query : string; s_fragment : string
}.

Record ParseResult : Type := mkParse {
  scheme : string; netloc : string; path : string;
  params : string; query : string; fragment : string
}.

Definition uses_relative : list string :=
  [""; "ftp"; "http"; "gopher"; "nntp"; "imap"; "wais"; "file"; "https";
   "shttp"; "mms"; "prospero"; "rtsp"; "rtspu"; "sftp"; "svn"; "svn+ssh";
   "ws"; "wss"].

Definition uses_netloc : list string :=
  [""; "ftp"; "http"; "gopher"; "nntp"; "telnet"; "imap"; "wais"; "file";
   "mms"; "https"; "shttp"; "snews"; "prospero"; "rtsp"; "rtspu"; "rsync";
   "svn"; "svn+ssh"; "sftp"; "nfs"; "git"; "git+ssh"; "ws"; "wss"].

Definition uses_params : list string :=
  [""; "ftp"; "hdl"; "prospero"; "http"; "imap"; "https"; "shttp"; "rtsp";
   "rtspu"; "sip"; "sips"; "mms"; "sftp"; "tel"].

Definition mem (s : string) (l : list string) : bool :=
  existsb (String.eqb s) l.

Definition scheme_char (c : ascii) : bool :=
  PyStr.is_ascii_alpha c || PyStr.is_digit c
  || Ascii.eqb c "+" || Ascii.eqb c "-" || Ascii.eqb c ".".

(** Membership in [_WHATWG_C0_CONTROL_OR_SPACE] *)
Definition c0_control_or_space (c : ascii) : bool := (PyStr.code c <=? 32)%N.

(** Membership in [_UNSAFE_URL_BYTES_TO_REMOVE] *)
Definition unsafe_url_byte (c : ascii) : bool :=
  Ascii.eqb c "009" || Ascii.eqb c "013" || Ascii.eqb c "010".

Definition netloc_delim (c : ascii) : bool :=
  Ascii.eqb c "/" || Ascii.eqb c "?" || Ascii.eqb c "#".

(** [_splitnetloc(url, 2)] *)
Definition splitnetloc (url : string) : string * string :=
  PyStr.break netloc_delim (PyStr.drop 2 url).

Definition isascii (s : string) : bool :=
  PyStr.forallb (fun c => (PyStr.code c <? 128)%N) s.

Definition urlunsplit (r : SplitResult) : string :=
  let url := s_path r in
  let url :=
    if PyStr.truthy (s_netloc r)
       || (PyStr.truthy (s_scheme r) && mem (s_scheme r) uses_netloc
           && negb (String.eqb (PyStr.take 2 url) "//"))
    then
      let url :=
        if PyStr.truthy url && negb (String.eqb (PyStr.take 1 url) "/")
        then "/" +:+ url else url in
      "//" +:+ s_netloc r +:+ url
    else url in
  let url := if PyStr.truthy (s_scheme r) then s_scheme r +:+ ":" +:+ url else url in
  let url := if PyStr.truthy (s_query r) then url +:+ "?" +:+ s_query r else url in
  if PyStr.truthy (s_fragment r) then url +:+ "#" +:+ s_fragment r else url.

Definition urlunparse (r : ParseResult) : string :=
  let url := if PyStr.truthy (params r) then path r +:+ ";" +:+ params r else path r in
  urlunsplit (mkSplit (scheme r) (netloc r) url (query r) (fragment r)).

(** [_splitparams(url)], called only when [';' in url] *)
Definition splitparams (url : string) : string * string :=
  match PyStr.rpartition "/" url with
  | Some (dir, last) =>
      match PyStr.partition ";" last with
      | Some (a, b) => (dir +:+ "/" +:+ a, b)
      | None => (url, "")
      end
  | None =>
      match PyStr.partition ";" url with
      | Some (a, b) => (a, b)
      | None => (PyStr.take (String.length url - 1) url, url)
      end
  end.

(** [segments[1:-1] = filter(None, segments[1:-1])] *)
Definition filter_inner (segments : list string) : list string :=
  match segments with
  | [] => []
  | first :: tl =>
      match rev tl with
      | [] => [first]
      | lst :: inner => first :: filter (fun s => PyStr.truthy s) (rev inner) ++ [lst]
      end
  end.

(** The loop of [urljoin] that builds [resolved_path] *)
Definition resolve_segments (segments : list string) : list string :=
  fold_left
    (fun resolved seg =>
       if String.eqb seg ".." then removelast resolved
       else if String.eqb seg "." then resolved
       else resolved ++ [seg])
    segments [].

Section WithWorld.
Context (W : World).

(** [_check_bracketed_netloc(netloc)] *)
Definition check_bracketed_netloc (netloc : string) : res unit :=
  let hostname_and_port :=
    match PyStr.rpartition "@" netloc with
    | Some (_, hp) => hp
    | None => netloc
    end in
  match PyStr.partition "[" hostname_and_port with
  | Some (before_bracket, bracketed) =>
      if PyStr.truthy before_bracket then Raise "Invalid IPv6 URL"
      else
        let '(hostname, port) :=
          match PyStr.partition "]" bracketed with
          | Some (h, p) => (h, p)
          | None => (bracketed, "")
          end in
        if PyStr.truthy port && negb (PyStr.startswith ":" port)
        then Raise "Invalid IPv6 URL"
        else check_bracketed_host W hostname
  | None =>
      let hostname :=
        match PyStr.partition ":" hostname_and_port with
        | Some (h, _) => h
        | None => hostname_and_port
        end in
      check_bracketed_host W hostname
  end.

(** [_checknetloc(netloc)] *)
Definition checknetloc (netloc : string) : res unit :=
  if PyStr.is_empty netloc || isascii netloc then Ok tt
  else checknetloc_nfkc W netloc.

(** [urlsplit(url, scheme)] *)
Definition urlsplit (url scheme : string) : res SplitResult :=
  let url := PyStr.lstrip c0_control_or_space url in
  let scheme := PyStr.strip c0_control_or_space scheme in
  let url := PyStr.remove unsafe_url_byte url in
  let scheme := PyStr.remove unsafe_url_byte scheme in
  let '(scheme, url) :=
    match PyStr.partition ":" url with
    | Some (String c0 _ as pre, rest) =>
        if PyStr.is_ascii_alpha c0 && PyStr.forallb scheme_char pre
        then (PyStr.lower pre, rest)
        else (scheme, url)
    | _ => (scheme, url)
    end in
  '(netloc, url) ←
    (if String.eqb (PyStr.take 2 url) "//" then
       let '(netloc, rest) := splitnetloc url in
       let lb := PyStr.contains "[" netloc in
       let rb := PyStr.contains "]" netloc in
       if (lb && negb rb) || (rb && negb lb) then Raise "Invalid IPv6 URL"
       else
         _ ← (if lb && rb then check_bracketed_netloc netloc else Ok tt);
         Ok (netloc, rest)
     else Ok ("", url));
  let '(url, fragment) :=
    match PyStr.partition "#" url with
    | Some (a, b) => (a, b)
    | None => (url, "")
    end in
  let '(url, query) :=
    match PyStr.partition "?" url with
    | Some (a, b) => (a, b)
    | None => (url, "")
    end in
  _ ← checknetloc netloc;
  Ok (mkSplit scheme netloc url query fragment).

(** [urlparse(url, scheme)] *)
Definition urlparse_with (url scheme : string) : res ParseResult :=
  r ← urlsplit url scheme;
  let '(url, params) :=
    if mem (s_scheme r) uses_params && PyStr.contains ";" (s_path r)
    then splitparams (s_path r)
    else (s_path r, "") in
  Ok (mkParse (s_scheme r) (s_netloc r) url params (s_query r) (s_fragment r)).

(** [urlparse(url)] *)
Definition urlparse (url : string) : res ParseResult := urlparse_with url "".

(** [urljoin(base, url)] *)
Definition urljoin (base url : string) : res string :=
  if PyStr.is_empty base then Ok url
  else if PyStr.is_empty url then Ok base
  else
    b ← urlparse_with base "";
    u ← urlparse_with url (scheme b);
    if negb (String.eqb (scheme u) (scheme b)) || negb (mem (scheme u) uses_relative)
    then Ok url
    else if mem (scheme u) uses_netloc && PyStr.truthy (netloc u)
    then Ok (urlunparse u)
    else
      let netloc' := if mem (scheme u) uses_netloc then netloc b else netloc u in
      if PyStr.is_empty (path u) && PyStr.is_empty (params u) then
        let query' := if PyStr.is_empty (query u) then query b else query u in
        Ok (urlunparse (mkParse (scheme u) netloc' (path b) (params b) query' (fragment u)))
      else
        let base_parts := PyStr.split "/" (path b) in
        let base_parts :=
          if negb (String.eqb (List.last base_parts "") "")
          then removelast base_parts else base_parts in
        let segments :=
          if String.eqb (PyStr.take 1 (path u)) "/"
          then PyStr.split "/" (path u)
          else filter_inner (base_parts ++ PyStr.split "/" (path u)) in
        let resolved_path := resolve_segments segments in
        let lst := List.last segments "" in
        let resolved_path :=
          if String.eqb lst "." || String.eqb lst ".."
          then resolved_path ++ [""] else resolved_path in
        let joined := PyStr.join "/" resolved_path in
        let path' := if PyStr.is_empty joined then "/" else joined in
        Ok (urlunparse (mkParse (scheme u) netloc' path' (params u) (query u) (fragment u))).

End WithWorld.

End Urllib.

(** ** The [bs4] tree API *)

Module Bs4.

(** [tag.descendants]: the nodes below a node, in document order. *)
Fixpoint subtree (n : node) : list node :=
  n :: match n with
       | Tag _ _ cs => flat_map subtree cs
       | _ => []
       end.

Definition descendants (s : soup) : list node := flat_map subtree s.

Definition attr (key : string) (n : node) : option string :=
  match n with
  | Tag _ attrs _ => snd <$> List.find (fun kv => String.eqb (fst kv) key) attrs
  | _ => None
  end.

Definition named (names : list string) (n : node) : bool :=
  match n with
  | Tag nm _ _ => existsb (String.eqb nm) names
  | _ => false
  end.

(** [soup(names)], that is [soup.find_all(names)] *)
Definition find_all (names : list string) (s : soup) : list node :=
  List.filter (named names) (descendants s).

(** [soup.find_all(name, key=True)]: the tags [name] that have the
    attribute [key] *)
Definition find_all_with (name key : string) (s : soup) : list node :=
  List.filter (fun n => named [name] n && bool_decide (is_Some (attr key n)))
              (descendants s).

(** [tag[key]]; a missing key raises [KeyError(key)]. *)
Definition getitem (n : node) (key : string) : res string :=
  match attr key n with
  | Some v => Ok v
  | None => Raise ("'" +:+ key +:+ "'")
  end.

(** The tree once every tag of [find_all names] has been [decompose]d. *)
Fixpoint decompose_node (names : list string) (n : node) : list node :=
  match n with
  | Tag nm attrs cs =>
      if existsb (String.eqb nm) names then []
      else [Tag nm attrs (flat_map (decompose_node names) cs)]
  | _ => [n]
  end.

Definition decompose_all (names : list string) (s : soup) : soup :=
  flat_map (decompose_node names) s.

(** [soup.title], that is [soup.find("title")] *)
Definition title (s : soup) : option node :=
  List.find (named ["title"]) (descendants s).

(** [tag.string]: the single string below the tag, [None] when a tag on
    the way has no child or several. *)
Fixpoint tag_string (n : node) : option string :=
  match n with
  | Tag _ _ [child] => tag_string child
  | Tag _ _ _ => None
  | NavigableString s => Some s
  | Comment s => Some s
  end.

(** The text strings of the document, in document order. *)
Definition text_strings (s : soup) : list string :=
  omap (fun n => match n with NavigableString t => Some t | _ => None end)
       (descendants s).

(** [_all_strings(strip=True)]: each string stripped, the empty ones
    skipped. *)
Definition all_strings_stripped (s : soup) : list string :=
  List.filter PyStr.truthy (PyStr.strip PyStr.isspace <$> text_strings s).

(** [soup.get_text(separator=sep, strip=True)] *)
Definition get_text (sep : string) (s : soup) : string :=
  PyStr.join sep (all_strings_stripped s).

End Bs4.

(** ** The scraper *)

(** The dictionary that [scrape_page] returns.  [title] is [None] when
    Python's [None] is stored under ['title']. *)
Record PageRecord : Type := mkPage {
  url : string;
  title : option string;
  content : string;
  links : list string;
  status : Z
}.

(** [st.session_state] *)
Record session_state : Type := mkState {
  scraped_data : list PageRecord;
  visited_urls : gset string;
  queue : list string
}.

(** The sidebar inputs.  The slider gives [max_pages] in 1..100.  [delay] is
    only passed to [time.sleep] and is left out. *)
Record config : Type := mkConfig {
  base_url : string;
  max_pages : nat;
  include_external : bool
}.

(** What the handler shows: [st.error(msg)], or [st.success] with the number
    of visited pages. *)
Inductive ui_message : Type :=
  | st_error (msg : string)
  | st_success (visited : nat).

Section Scraper.
Context (W : World).

Definition is_valid_url (u : string) : bool :=
  match Urllib.urlparse W u with
  | Ok result => PyStr.truthy (Urllib.scheme result) && PyStr.truthy (Urllib.netloc result)
  | Raise _ => false
  end.

Definition get_domain (u : string) : res string :=
  result ← Urllib.urlparse W u;
  Ok (Urllib.netloc result).

(** [response.raise_for_status()] *)
Definition raise_for_status (r : Requests.response) : res unit :=
  if ((400 <=? Requests.status_code r) && (Requests.status_code r <? 600))%Z
  then Raise (http_error_msg W r)
  else Ok tt.

(** The loop over the anchors that fills [links]. *)
Fixpoint extract_links (u : string) (anchors : list node) : res (list string) :=
  match anchors with
  | [] => Ok []
  | link :: rest =>
      href ← Bs4.getitem link "href";
      full_url ← Urllib.urljoin W u href;
      more ← extract_links u rest;
      Ok (if is_valid_url full_url then full_url :: more else more)
  end.

(** The body of the [try] of [scrape_page]. *)
Definition scrape_try (u : string) : res PageRecord :=
  response ← requests_get W u;
  _ ← raise_for_status response;
  parsed ← html_parser W (Requests.content response);
  let soup := Bs4.decompose_all ["script"; "style"] parsed in
  let title :=
    match Bs4.title soup with
    | Some t => Bs4.tag_string t
    | None => Some "No Title"
    end in
  let text_content := PyStr.take 5000 (Bs4.get_text " " soup) in
  links ← extract_links u (Bs4.find_all_with "a" "href" soup);
  Ok (mkPage u title text_content links (Requests.status_code response)).

Definition scrape_page (u : string) : PageRecord :=
  match scrape_try u with
  | Ok page => page
  | Raise e => mkPage u (Some "Error") ("Error scraping page: " +:+ e) [] 0
  end.

Context (cfg : config).

(** The condition of the [while] of [process_queue]. *)
Definition loop_cond (st : session_state) : bool :=
  negb (bool_decide (queue st = [])) && (size (visited_urls st) <? max_pages cfg).

(** The [for link in page_data['links']] loop, on the queue. *)
Fixpoint enqueue_links (base_domain : string) (visited : gset string)
    (page_links : list string) (q : list string) : res (list string) :=
  match page_links with
  | [] => Ok q
  | link :: rest =>
      if bool_decide (link ∈ visited) then enqueue_links base_domain visited rest q
      else if include_external cfg then
        enqueue_links base_domain visited rest (q ++ [link])
      else
        d ← get_domain link;
        if String.eqb d base_domain
        then enqueue_links base_domain visited rest (q ++ [link])
        else enqueue_links base_domain visited rest q
  end.

(** One iteration of the [while] of [process_queue]. *)
Definition loop_body (base_domain : string) (st : session_state) : res session_state :=
  match queue st with
  | [] => Raise "pop from an empty deque"
  | current_url :: rest =>
      if bool_decide (current_url ∈ visited_urls st)
      then Ok (mkState (scraped_data st) (visited_urls st) rest)
      else
        let visited := {[current_url]} ∪ visited_urls st in
        let page_data := scrape_page current_url in
        q ← enqueue_links base_domain visited (links page_data) rest;
        Ok (mkState (scraped_data st ++ [page_data]) visited q)
  end.

(** [process_queue(base_domain)], with [fuel] bounding the number of
    iterations: [None] when the fuel runs out. *)
Fixpoint process_queue (fuel : nat) (base_domain : string) (st : session_state)
    : option (res session_state) :=
  if loop_cond st then
    match fuel with
    | O => None
    | S fuel' =>
        match loop_body base_domain st with
        | Ok st' => process_queue fuel' base_domain st'
        | Raise e => Some (Raise e)
        end
    end
  else Some (Ok st).

(** The state after the handler's reset. *)
Definition fresh_state : session_state := mkState [] ∅ [base_url cfg].

(** The handler of the "Start Scraping" button, run on the session state
    [st]; it returns the new session state and the message shown. *)
Definition start_scraping (fuel : nat) (st : session_state)
    : option (res (session_state * ui_message)) :=
  if PyStr.is_empty (base_url cfg) then
    Some (Ok (st, st_error "Please enter a valid URL"))
  else if negb (is_valid_url (base_url cfg)) then
    Some (Ok (st, st_error "Please enter a valid URL including http:// or https://"))
  else
    match get_domain (base_url cfg) with
    | Raise e => Some (Raise e)
    | Ok base_domain =>
        match process_queue fuel base_domain fresh_state with
        | None => None
        | Some (Raise e) => Some (Raise e)
        | Some (Ok st') => Some (Ok (st', st_success (size (visited_urls st'))))
        end
    end.

(** The session state at the [n]-th iteration boundary of the [while] of
    [process_queue] started on [st]: [None] when the loop has stopped, or
    raised, before its [n]-th iteration is over. *)
Fixpoint state_after (n : nat) (base_domain : string) (st : session_state)
    : option session_state :=
  match n with
  | O => Some st
  | S n' =>
      if loop_cond st then
        match loop_body base_domain st with
        | Ok st' => state_after n' base_domain st'
        | Raise _ => None
        end
      else None
  end.

(** The test [include_external or get_domain(link) == base_domain] of
    [process_queue], as a total predicate. *)
Definition in_scope (base_domain link : string) : bool :=
  include_external cfg
  || match get_domain link with
     | Ok d => String.eqb d base_domain
     | Raise _ => false
     end.

End Scraper.

(** [is_valid_url] accepts [u]. *)
Definition valid (W : World) (u : string) : Prop := is_valid_url W u = true.


(** ** URLs as [urlsplit] reads them *)

(** The URL once [urlsplit] has stripped the leading control characters and
    spaces and removed the tabs, carriage returns and line feeds. *)
Definition cleaned (u : string) : string :=
  PyStr.remove Urllib.unsafe_url_byte (PyStr.lstrip Urllib.c0_control_or_space u).

(** A character of a host that needs none of the checks of [urlsplit]:
    ASCII, not one of [/?#], not a bracket, not a tab, carriage return or
    line feed. *)
Definition plain_host_char (c : ascii) : bool :=
  (PyStr.code c <? 128)%N && negb (Urllib.netloc_delim c)
  && negb (Ascii.eqb c "[") && negb (Ascii.eqb c "]")
  && negb (Urllib.unsafe_url_byte c).

(** ** The rest of the script: session state, results, instructions *)

(** [st.session_state] as the script finds it: a key is there or not. *)
Record raw_session : Type := mkRaw {
  raw_scraped_data : option (list PageRecord);
  raw_visited_urls : option (gset string);
  raw_queue : option (list string)
}.

(** The three [if key not in st.session_state] of the script. *)
Definition init_session (raw : raw_session) : session_state :=
  mkState (default [] (raw_scraped_data raw))
          (default ∅ (raw_visited_urls raw))
          (default [] (raw_queue raw)).

(** The session state as a dictionary that has the three keys. *)
Definition to_raw (st : session_state) : raw_session :=
  mkRaw (Some (scraped_data st)) (Some (visited_urls st)) (Some (queue st)).

(** The three [st.metric] of the summary. *)
Record metrics : Type := mkMetrics {
  pages_scraped : nat;
  successful_requests : nat;
  error_pages : nat
}.

Definition summary_metrics (data : list PageRecord) : metrics :=
  mkMetrics (length data)
            (length (List.filter (fun d => (status d =? 200)%Z) data))
            (length (List.filter (fun d => negb (status d =? 200)%Z) data)).

(** [f"{title}"]: Python's [None] prints as ["None"]. *)
Definition format_title (t : option string) : string := default "None" t.

(** A row of [display_df]: the url as a markdown link, the title, the
    status. *)
Definition table_row (d : PageRecord) : string * option string * Z :=
  ("[" +:+ url d +:+ "](" +:+ url d +:+ ")", title d, status d).

(** What the detailed view shows of the links of a page: "No links found",
    or the first ten links, followed or not by "...and more". *)
Inductive links_view : Type :=
  | no_links_found
  | links_shown (shown : list string) (and_more : bool).

Definition links_preview (ls : list string) : links_view :=
  match ls with
  | [] => no_links_found
  | _ => links_shown (firstn 10 ls) (10 <? length ls)
  end.

(** One [st.expander] of the detailed view; [area_key i] stands for the
    widget key [f"content_{i}"]. *)
Record expander : Type := mkExpander {
  label : string;
  shown_status : Z;
  area_key : nat;
  area_text : string;
  links_found : nat;
  links_list : links_view
}.

Definition detail (i : nat) (page : PageRecord) : expander :=
  mkExpander (format_title (title page) +:+ " - " +:+ url page)
             (status page) i (content page)
             (length (links page)) (links_preview (links page)).

(** What the script renders below the handler's message: the results
    (metrics, table, detailed view, and the records handed to the Excel
    export), or the instructions. *)
Inductive view : Type :=
  | results_view (m : metrics) (table : list (string * option string * Z))
                 (details : list expander) (exported : list PageRecord)
  | instructions.

Definition render (st : session_state) : view :=
  match scraped_data st with
  | [] => instructions
  | data => results_view (summary_metrics data) (table_row <$> data)
                         (imap detail data) data
  end.

(** One run of the whole script: [pressed] tells whether the
    "Start Scraping" button was clicked.  It returns the session state left
    behind, the message of the handler if any, and what is rendered. *)
Definition script (W : World) (cfg : config) (pressed : bool) (fuel : nat)
    (raw : raw_session) : option (res (session_state * option ui_message * view)) :=
  let st := init_session raw in
  if pressed then
    match start_scraping W cfg fuel st with
    | None => None
    | Some (Raise e) => Some (Raise e)
    | Some (Ok (st', msg)) => Some (Ok (st', Some msg, render st'))
    end
  else Some (Ok (st, None, render st)).

(** ** The content field as the specification words it *)

Module Spec.

Definition cons_word (w : string) (ws : list string) : list string :=
  if PyStr.is_empty w then ws else w :: ws.

(** The word that starts [s], and the words after it. *)
Fixpoint words_from (s : string) : string * list string :=
  match s with
  | EmptyString => (EmptyString, [])
  | String c s' =>
      let '(w, ws) := words_from s' in
      if PyStr.isspace c then (EmptyString, cons_word w ws) else (String c w, ws)
  end.

(** The maximal runs of characters that are not whitespace: [s.split()]. *)
Definition words (s : string) : list string :=
  cons_word (fst (words_from s)) (snd (words_from s)).

(** "runs of whitespace collapsed to single spaces" *)
Definition collapse_whitespace (s : string) : string :=
  PyStr.join " " (words s).

(** "all remaining visible text": the text strings of the document once the
    script and style elements are removed, one space between two of them. *)
Definition visible_text (parsed : soup) : string :=
  PyStr.join " " (Bs4.text_strings (Bs4.decompose_all ["script"; "style"] parsed)).

(** "with runs of whitespace collapsed to single spaces, truncated to the
    first 5000 characters" *)
Definition content_of (parsed : soup) : string :=
  PyStr.take 5000 (collapse_whitespace (visible_text parsed)).

End Spec.

(** ** A small site to run the scraper on *)

Module Demo.

Definition home : soup :=
  [Tag "html" []
     [Tag "head" []
        [Tag "title" [] [NavigableString "Home"];
         Tag "script" [] [NavigableString "var x = 1;"]];
      Tag "body" []
        [NavigableString "  Hello   world  ";
         Tag "a" [("href", "https://example.com/")] [NavigableString " again "];
         Tag "a" [("href", "#top")] [];
         Tag "a" [("name", "top")] [];
         Tag "a" [("href", "/about")] [NavigableString "About"];
         Tag "a" [("href", "/missing")] [];
         Tag "a" [("href", "http://other.org/z")] [Comment "elsewhere"]]]].

Definition about : soup :=
  [Tag "html" []
     [Tag "head" [] [Tag "title" [] []];
      Tag "body" []
        [Tag "p" [] [NavigableString " About us "];
         Tag "a" [("href", "mailto:test@example.com")] [NavigableString "Mail"];
         Tag "a" [("href", "javascript:void(0)")] [NavigableString "Menu"]]]].

Definition serves_home (u : string) : bool :=
  String.eqb u "https://example.com" || String.eqb u "https://example.com/"
  || String.eqb u "https://example.com#top".

(** The home page is served under three spellings of its address,
    [/about] is served, [/missing] answers 404, nothing else can be
    reached. *)
Definition world : World := {|
  requests_get u :=
    if serves_home u then Ok (Requests.mkResponse "home" 200)
    else if String.eqb u "https://example.com/about" then Ok (Requests.mkResponse "about" 200)
    else if String.eqb u "https://example.com/missing" then Ok (Requests.mkResponse "" 404)
    else Raise "Connection refused";
  http_error_msg r := "404 Client Error: Not Found";
  html_parser body :=
    if String.eqb body "home" then Ok home
    else if String.eqb body "about" then Ok about
    else Ok [];
  check_bracketed_host _ := Ok tt;
  checknetloc_nfkc _ := Ok tt
|}.

(** A world without network: every request fails. *)
Definition offline : World := {|
  requests_get u := Raise "Name or service not known";
  http_error_msg r := "";
  html_parser body := Ok [];
  check_bracketed_host _ := Ok tt;
  checknetloc_nfkc _ := Ok tt
|}.

Definition seed : string := "https://example.com".

Definition cfg (n : nat) (ext : bool) : config := mkConfig seed n ext.

Definition empty_state : session_state := mkState [] ∅ [].

(** The session state after [n] iterations of the crawl of [world] with a
    budget of ten pages, external links left out. *)
Definition after (n : nat) : session_state :=
  default empty_state
    (state_after world (cfg 10 false) n "example.com" (fresh_state (cfg 10 false))).

Definition after1 : session_state := Eval vm_compute in after 1.
Definition after3 : session_state := Eval vm_compute in after 3.

End Demo.

(** ** A page with an href that cannot be parsed *)

Module Broken.

Definition page : soup :=
  [Tag "html" []
     [Tag "head" [] [Tag "title" [] [NavigableString "Welcome"]];
      Tag "body" []
        [NavigableString "Welcome";
         Tag "a" [("href", "/ok")] [NavigableString "fine"];
         Tag "a" [("href", "http://[bad")] [NavigableString "broken"]]]].

(** Every address serves [page] with status 200. *)
Definition world : World := {|
  requests_get u := Ok (Requests.mkResponse "page" 200);
  http_error_msg r := "";
  html_parser body := Ok page;
  check_bracketed_host _ := Ok tt;
  checknetloc_nfkc _ := Ok tt
|}.

End Broken.

(** ** A page with an href whose error message is long *)

Module LongHref.

Fixpoint repeat_char (c : ascii) (n : nat) : string :=
  match n with
  | O => EmptyString
  | S n' => String c (repeat_char c n')
  end.

(** A bracketed host of 5000 digits, which is no IP address. *)
Definition href : string := "http://[" +:+ repeat_char "1" 5000 +:+ "]/".

Definition page : soup :=
  [Tag "html" []
     [Tag "head" [] [Tag "title" [] [NavigableString "Links"]];
      Tag "body" []
        [NavigableString "See";
         Tag "a" [("href", href)] [NavigableString "there"]]]].

(** Every address serves [page] with status 200.  On a bracketed host
    without a colon, [check_bracketed_host] raises as
    [ipaddress.ip_address] does on a string that is no IP address: the
    message quotes the host. *)
Definition world : World := {|
  requests_get u := Ok (Requests.mkResponse "page" 200);
  http_error_msg r := "";
  html_parser body := Ok page;
  check_bracketed_host h :=
    if PyStr.contains ":" h then Ok tt
    else Raise ("'" +:+ h +:+ "' does not appear to be an IPv4 or IPv6 address");
  checknetloc_nfkc _ := Ok tt
|}.

End LongHref.

(** * Properties of the scraper *)

(** ** Exceptions *)

Lemma bind_Ok {A B : Type} (m : res A) (k : A → res B) (b : B) :
  m ≫= k = Ok b → ∃ a, m = Ok a ∧ k a = Ok b.
Proof. destruct m as [a|e]; cbn; [eauto | discriminate]. Qed.

(** ** Documents *)

(** Induction on a document tree, with the hypothesis on every child. *)
Lemma node_children_ind (P : node → Prop) :
  (∀ nm attrs cs, Forall P cs → P (Tag nm attrs cs)) →
  (∀ s, P (NavigableString s)) →
  (∀ s, P (Comment s)) →
  ∀ n, P n.
Proof.
  intros HTag HStr HCom. fix IH 1. intros [nm attrs cs|s|s].
  - apply HTag. induction cs as [|c cs IHcs]; constructor; [apply IH|exact IHcs].
  - apply HStr.
  - apply HCom.
Qed.

(** Once the tags named in [names] are decomposed, no node of the tree has
    one of these names: [find_all] finds nothing more to remove. *)
Lemma decompose_node_clean (names : list string) (n : node) :
  Forall (fun d => Bs4.named names d = false)
         (flat_map Bs4.subtree (Bs4.decompose_node names n)).
Proof.
  induction n as [nm attrs cs IH|s|s] using node_children_ind.
  - cbn [Bs4.decompose_node].
    destruct (existsb (String.eqb nm) names) eqn:Hnm; [constructor|].
    cbn [flat_map Bs4.subtree]. rewrite app_nil_r. constructor; [exact Hnm|].
    induction IH as [|c cs Hc _ IHcs]; [constructor|].
    cbn [flat_map]. rewrite flat_map_app. apply Forall_app. split; assumption.
  - repeat constructor.
  - repeat constructor.
Qed.

Lemma decompose_all_clean (names : list string) (s : soup) :
  Bs4.find_all names (Bs4.decompose_all names s) = [].
Proof.
  unfold Bs4.find_all, Bs4.descendants, Bs4.decompose_all.
  induction s as [|n s IH]; [reflexivity|].
  cbn [flat_map]. rewrite flat_map_app, List.filter_app, IH, app_nil_r.
  pose proof (decompose_node_clean names n) as Hclean.
  induction Hclean as [|d ds Hd _ IHds]; [reflexivity|].
  cbn [List.filter]. rewrite Hd. exact IHds.
Qed.

(** ** One page *)

Section PageFacts.
Context (W : World).

(** Both components that [is_valid_url] asks for are there. *)
Lemma is_valid_url_parse u :
  is_valid_url W u = true ↔
  ∃ r, Urllib.urlparse W u = Ok r ∧ Urllib.scheme r ≠ "" ∧ Urllib.netloc r ≠ "".
Proof.
  unfold is_valid_url. split.
  - destruct (Urllib.urlparse W u) as [r|e]; [|discriminate].
    intros [Hs Hn]%andb_prop. exists r. split; [reflexivity|].
    split; intros Heq; rewrite Heq in *; discriminate.
  - intros (r & -> & Hs & Hn).
    destruct (Urllib.scheme r); [congruence|].
    destruct (Urllib.netloc r); [congruence|]. reflexivity.
Qed.

Lemma valid_get_domain u :
  valid W u → ∃ d, get_domain W u = Ok d ∧ d ≠ "".
Proof.
  intros (r & Hr & _ & Hn)%is_valid_url_parse.
  exists (Urllib.netloc r). unfold get_domain. rewrite Hr. auto.
Qed.

Lemma extract_links_valid u anchors ls :
  extract_links W u anchors = Ok ls → Forall (valid W) ls.
Proof.
  revert ls. induction anchors as [|a anchors IH]; intros ls H; cbn in H.
  - injection H as <-. constructor.
  - apply bind_Ok in H as (href & _ & H).
    apply bind_Ok in H as (full & _ & H).
    apply bind_Ok in H as (more & Hmore & H).
    injection H as <-. specialize (IH _ Hmore).
    destruct (is_valid_url W full) eqn:E; [constructor|]; assumption.
Qed.

(** What a page that is scraped without an exception is made of. *)
Lemma scrape_try_Ok u page :
  scrape_try W u = Ok page →
  ∃ response parsed,
    let soup := Bs4.decompose_all ["script"; "style"] parsed in
    requests_get W u = Ok response
    ∧ raise_for_status W response = Ok tt
    ∧ html_parser W (Requests.content response) = Ok parsed
    ∧ extract_links W u (Bs4.find_all_with "a" "href" soup) = Ok (links page)
    ∧ page = mkPage u
               (match Bs4.title soup with
                | Some t => Bs4.tag_string t
                | None => Some "No Title"
                end)
               (PyStr.take 5000 (Bs4.get_text " " soup))
               (links page)
               (Requests.status_code response).
Proof.
  unfold scrape_try. intros H.
  apply bind_Ok in H as (response & Hget & H).
  apply bind_Ok in H as ([] & Hstatus & H).
  apply bind_Ok in H as (parsed & Hparse & H).
  apply bind_Ok in H as (ls & Hlinks & H).
  injection H as <-. exists response, parsed. cbn. auto.
Qed.

Lemma scrape_page_Ok u page :
  scrape_try W u = Ok page → scrape_page W u = page.
Proof. unfold scrape_page. intros ->. reflexivity. Qed.

Lemma scrape_page_Raise u e :
  scrape_try W u = Raise e →
  scrape_page W u = mkPage u (Some "Error") ("Error scraping page: " +:+ e) [] 0.
Proof. unfold scrape_page. intros ->. reflexivity. Qed.

Lemma scrape_page_url u : url (scrape_page W u) = u.
Proof.
  unfold scrape_page. destruct (scrape_try W u) as [page|e] eqn:E; [|reflexivity].
  apply scrape_try_Ok in E as (? & ? & _ & _ & _ & _ & ->). reflexivity.
Qed.

Lemma scrape_page_links_valid u : Forall (valid W) (links (scrape_page W u)).
Proof.
  unfold scrape_page. destruct (scrape_try W u) as [page|e] eqn:E; [|constructor].
  apply scrape_try_Ok in E as (? & ? & _ & _ & _ & H & _).
  eapply extract_links_valid, H.
Qed.

End PageFacts.

(** ** The loop *)

Section LoopFacts.
Context (W : World) (cfg : config) (base_domain : string).

Abbreviation keep visited :=
  (fun link => negb (bool_decide (link ∈ visited)) && in_scope W cfg base_domain link).

Lemma in_scope_external link :
  include_external cfg = true → in_scope W cfg base_domain link = true.
Proof. unfold in_scope. intros ->. reflexivity. Qed.

Lemma in_scope_domain link d :
  include_external cfg = false → get_domain W link = Ok d →
  in_scope W cfg base_domain link = String.eqb d base_domain.
Proof. unfold in_scope. intros -> ->. reflexivity. Qed.

(** On valid links the [for] loop does not raise: it appends the links that
    are neither visited nor out of scope, in order. *)
Lemma enqueue_links_valid (visited : gset string) ls q :
  Forall (valid W) ls →
  enqueue_links W cfg base_domain visited ls q = Ok (q ++ List.filter (keep visited) ls).
Proof.
  intros Hls. revert q.
  induction Hls as [|l ls Hl _ IH]; intros q; cbn [enqueue_links List.filter].
  - rewrite app_nil_r. reflexivity.
  - destruct (bool_decide (l ∈ visited)); cbn [negb andb]; [apply IH|].
    destruct (include_external cfg) eqn:Hext.
    + rewrite in_scope_external by assumption.
      rewrite IH, <- app_assoc. reflexivity.
    + destruct (valid_get_domain W l Hl) as (d & Hd & _).
      rewrite (in_scope_domain l d) by assumption. rewrite Hd. cbn.
      destruct (String.eqb d base_domain); rewrite IH; [rewrite <- app_assoc|]; reflexivity.
Qed.

(** One iteration, in closed form. *)
Lemma loop_body_cons st u rest :
  queue st = u :: rest →
  loop_body W cfg base_domain st =
    Ok (if bool_decide (u ∈ visited_urls st)
        then mkState (scraped_data st) (visited_urls st) rest
        else mkState (scraped_data st ++ [scrape_page W u])
                     ({[u]} ∪ visited_urls st)
                     (rest ++ List.filter (keep ({[u]} ∪ visited_urls st))
                                          (links (scrape_page W u)))).
Proof.
  intros Hq. unfold loop_body. rewrite Hq.
  destruct (bool_decide (u ∈ visited_urls st)); [reflexivity|].
  rewrite enqueue_links_valid by apply scrape_page_links_valid. reflexivity.
Qed.

Lemma loop_cond_true st :
  loop_cond cfg st = true →
  (∃ u rest, queue st = u :: rest) ∧ size (visited_urls st) < max_pages cfg.
Proof.
  unfold loop_cond. intros [Hq Hn]%andb_prop. split.
  - destruct (queue st) as [|u rest]; [discriminate|eauto].
  - apply Nat.ltb_lt, Hn.
Qed.

Lemma loop_cond_intro st u rest :
  queue st = u :: rest → size (visited_urls st) < max_pages cfg →
  loop_cond cfg st = true.
Proof.
  unfold loop_cond. intros -> Hlt. apply andb_true_intro. split; [reflexivity|].
  apply Nat.ltb_lt, Hlt.
Qed.

(** An iteration never raises. *)
Lemma loop_body_total st :
  loop_cond cfg st = true → ∃ st', loop_body W cfg base_domain st = Ok st'.
Proof.
  intros [(u & rest & Hq) _]%loop_cond_true.
  rewrite (loop_body_cons _ _ _ Hq). eauto.
Qed.

(** A property kept by every iteration holds at every iteration boundary. *)
Lemma state_after_ind (P : session_state → Prop) :
  (∀ st st', P st → loop_cond cfg st = true →
             loop_body W cfg base_domain st = Ok st' → P st') →
  ∀ n st st', P st → state_after W cfg n base_domain st = Some st' → P st'.
Proof.
  intros Hstep. induction n as [|n IH]; intros st st' HP H; cbn in H.
  - injection H as <-. exact HP.
  - destruct (loop_cond cfg st) eqn:Hc; [|discriminate].
    destruct (loop_body W cfg base_domain st) as [st1|e] eqn:Hb; [|discriminate].
    eapply IH; [|exact H]. eapply Hstep; eassumption.
Qed.

Lemma process_queue_stop fuel st :
  loop_cond cfg st = false → process_queue W cfg fuel base_domain st = Some (Ok st).
Proof. intros H. destruct fuel; cbn; rewrite H; reflexivity. Qed.

Lemma process_queue_more_fuel fuel fuel' st r :
  process_queue W cfg fuel base_domain st = Some r → fuel ≤ fuel' →
  process_queue W cfg fuel' base_domain st = Some r.
Proof.
  revert fuel' st. induction fuel as [|fuel IH]; intros fuel' st H Hle; cbn in H.
  - destruct (loop_cond cfg st) eqn:Hc; [discriminate|].
    rewrite process_queue_stop; assumption.
  - destruct fuel' as [|fuel']; [lia|]. cbn.
    destruct (loop_cond cfg st); [|assumption].
    destruct (loop_body W cfg base_domain st); [|assumption].
    apply IH; [assumption|lia].
Qed.

(** The result of [process_queue] is the first iteration boundary at which
    the condition of the [while] is false. *)
Lemma process_queue_boundary fuel st st' :
  process_queue W cfg fuel base_domain st = Some (Ok st') →
  loop_cond cfg st' = false ∧ ∃ n, state_after W cfg n base_domain st = Some st'.
Proof.
  revert st. induction fuel as [|fuel IH]; intros st H; cbn in H.
  - destruct (loop_cond cfg st) eqn:Hc; [discriminate|].
    injection H as <-. split; [assumption|]. exists 0. reflexivity.
  - destruct (loop_cond cfg st) eqn:Hc.
    + destruct (loop_body W cfg base_domain st) as [st1|e] eqn:Hb; [|discriminate].
      destruct (IH _ H) as [Hstop [n Hn]]. split; [assumption|].
      exists (S n). cbn. rewrite Hc, Hb. exact Hn.
    + injection H as <-. split; [assumption|]. exists 0. reflexivity.
Qed.

(** The loop returns: a visit uses up one page of the budget, a skip one
    entry of the queue. *)
Lemma process_queue_terminates st :
  ∃ fuel st', process_queue W cfg fuel base_domain st = Some (Ok st').
Proof.
  remember (max_pages cfg - size (visited_urls st)) as budget eqn:Hb.
  revert st Hb.
  induction budget as [budget IHb] using (well_founded_induction lt_wf).
  intros st Hb.
  remember (queue st) as q eqn:Hq. revert st Hb Hq.
  induction q as [|u rest IHq]; intros st Hb Hq.
  - exists 0, st. apply process_queue_stop. unfold loop_cond.
    rewrite <- Hq. reflexivity.
  - destruct (loop_cond cfg st) eqn:Hc;
      [|exists 0, st; apply process_queue_stop, Hc].
    apply loop_cond_true in Hc as Hlt. destruct Hlt as [_ Hlt].
    pose proof (loop_body_cons st u rest (eq_sym Hq)) as Hbody.
    destruct (bool_decide (u ∈ visited_urls st)) eqn:Hu.
    + destruct (IHq (mkState (scraped_data st) (visited_urls st) rest))
        as (fuel & st' & Hrun); [assumption|reflexivity|].
      exists (S fuel), st'. cbn. rewrite Hc, Hbody. exact Hrun.
    + apply bool_decide_eq_false in Hu.
      match type of Hbody with _ = Ok ?s => set (st1 := s) in * end.
      destruct (IHb (max_pages cfg - size (visited_urls st1))) with (st := st1)
        as (fuel & st' & Hrun); [|reflexivity|].
      { subst st1 budget. cbn. rewrite size_union by set_solver.
        rewrite size_singleton. lia. }
      exists (S fuel), st'. cbn. rewrite Hc, Hbody. exact Hrun.
Qed.

End LoopFacts.

(** ** The claims on the crawl loop *)

(** C1: at every iteration boundary of the crawl loop started by the handler,
    the number of records in [scraped_data] is the size of [visited_urls],
    which is at most [max_pages]; and once the visited count has reached
    [max_pages] the condition of the loop is false, so [process_queue]
    returns at once. *)
Theorem C1_results_visited_budget (W : World) (cfg : config) (base_domain : string)
    (n : nat) (st : session_state) :
  state_after W cfg n base_domain (fresh_state cfg) = Some st →
  length (scraped_data st) = size (visited_urls st)
  ∧ size (visited_urls st) ≤ max_pages cfg
  ∧ (size (visited_urls st) = max_pages cfg →
     loop_cond cfg st = false
     ∧ ∀ fuel, process_queue W cfg fuel base_domain st = Some (Ok st)).
Proof.
  intros Hn.
  assert (length (scraped_data st) = size (visited_urls st)
          ∧ size (visited_urls st) ≤ max_pages cfg) as [Hlen Hle].
  { apply (state_after_ind W cfg base_domain
             (fun s => length (scraped_data s) = size (visited_urls s)
                       ∧ size (visited_urls s) ≤ max_pages cfg))
      with (n := n) (st := fresh_state cfg); [| |exact Hn].
    - clear. intros st st' [Hlen Hle] Hc Hb.
      apply loop_cond_true in Hc as [(u & rest & Hq) Hlt].
      rewrite (loop_body_cons W cfg base_domain st u rest Hq) in Hb.
      injection Hb as <-.
      destruct (bool_decide (u ∈ visited_urls st)) eqn:Hu; cbn; [auto|].
      apply bool_decide_eq_false in Hu.
      rewrite length_app, size_union, size_singleton by set_solver.
      cbn. lia.
    - cbn. rewrite size_empty. split; [reflexivity|lia]. }
  repeat split; try assumption.
  - unfold loop_cond. replace (size (visited_urls st) <? max_pages cfg) with false.
    + apply andb_false_r.
    + symmetry. apply Nat.ltb_ge. lia.
  - intros fuel. apply process_queue_stop. unfold loop_cond.
    replace (size (visited_urls st) <? max_pages cfg) with false.
    + apply andb_false_r.
    + symmetry. apply Nat.ltb_ge. lia.
Qed.

Lemma C1_witness :
  state_after Demo.world (Demo.cfg 10 false) 3 "example.com"
    (fresh_state (Demo.cfg 10 false)) = Some Demo.after3
  ∧ length (scraped_data Demo.after3) = size (visited_urls Demo.after3)
  ∧ size (visited_urls Demo.after3) ≤ max_pages (Demo.cfg 10 false)
  ∧ (size (visited_urls Demo.after3) = max_pages (Demo.cfg 10 false) →
     loop_cond (Demo.cfg 10 false) Demo.after3 = false
     ∧ ∀ fuel, process_queue Demo.world (Demo.cfg 10 false) fuel "example.com" Demo.after3
               = Some (Ok Demo.after3)).
Proof.
  split; [vm_compute; reflexivity|].
  apply (C1_results_visited_budget Demo.world (Demo.cfg 10 false) "example.com" 3).
  vm_compute; reflexivity.
Defined.

(** C2: at every iteration boundary no two records of [scraped_data] have
    the same [url], and the urls of the records are exactly the members of
    [visited_urls]; a dequeued URL that is already visited is dropped and
    nothing else changes, and a URL is added to [visited_urls] only when it
    is not yet a member, together with the one record made for it. *)
Theorem C2_each_url_visited_once (W : World) (cfg : config) (base_domain : string)
    (n : nat) (st : session_state) :
  state_after W cfg n base_domain (fresh_state cfg) = Some st →
  NoDup (url <$> scraped_data st)
  ∧ (∀ u, u ∈ visited_urls st ↔ u ∈ (url <$> scraped_data st))
  ∧ (∀ u rest, queue st = u :: rest → u ∈ visited_urls st →
       loop_body W cfg base_domain st
       = Ok (mkState (scraped_data st) (visited_urls st) rest))
  ∧ (∀ u rest st', queue st = u :: rest →
       loop_body W cfg base_domain st = Ok st' →
       visited_urls st' ≠ visited_urls st →
       (u ∉ visited_urls st)
       ∧ visited_urls st' = {[u]} ∪ visited_urls st
       ∧ scraped_data st' = scraped_data st ++ [scrape_page W u]
       ∧ url (scrape_page W u) = u).
Proof.
  intros Hn.
  assert (NoDup (url <$> scraped_data st)
          ∧ ∀ u, u ∈ visited_urls st ↔ u ∈ (url <$> scraped_data st)) as [Hnd Hvis].
  { apply (state_after_ind W cfg base_domain
             (fun s => NoDup (url <$> scraped_data s)
                       ∧ ∀ u, u ∈ visited_urls s ↔ u ∈ (url <$> scraped_data s)))
      with (n := n) (st := fresh_state cfg); [| |exact Hn].
    - clear. intros st st' [Hnd Hvis] Hc Hb.
      apply loop_cond_true in Hc as [(u & rest & Hq) _].
      rewrite (loop_body_cons W cfg base_domain st u rest Hq) in Hb.
      injection Hb as <-.
      destruct (bool_decide (u ∈ visited_urls st)) eqn:Hu; cbn; [auto|].
      apply bool_decide_eq_false in Hu.
      rewrite fmap_app. cbn. rewrite scrape_page_url. split.
      + apply NoDup_app. split; [assumption|]. split.
        * intros v Hv ->%list_elem_of_singleton. apply Hu, Hvis, Hv.
        * apply NoDup_singleton.
      + intros v.
        rewrite elem_of_app, list_elem_of_singleton, elem_of_union, elem_of_singleton, Hvis.
        tauto.
    - cbn. split; [constructor|]. intros u. set_solver. }
  split; [exact Hnd|]. split; [exact Hvis|]. split.
  - intros u rest Hq Hu. rewrite (loop_body_cons W cfg base_domain st u rest Hq).
    rewrite bool_decide_eq_true_2 by assumption. reflexivity.
  - intros u rest st' Hq Hb Hne.
    rewrite (loop_body_cons W cfg base_domain st u rest Hq) in Hb.
    injection Hb as <-.
    destruct (bool_decide (u ∈ visited_urls st)) eqn:Hu; cbn in *.
    + contradiction Hne. reflexivity.
    + apply bool_decide_eq_false in Hu. auto using scrape_page_url.
Qed.

Lemma C2_witness :
  state_after Demo.world (Demo.cfg 10 false) 3 "example.com"
    (fresh_state (Demo.cfg 10 false)) = Some Demo.after3
  ∧ NoDup (url <$> scraped_data Demo.after3)
  ∧ (∀ u, u ∈ visited_urls Demo.after3 ↔ u ∈ (url <$> scraped_data Demo.after3))
  ∧ (∀ u rest, queue Demo.after3 = u :: rest → u ∈ visited_urls Demo.after3 →
       loop_body Demo.world (Demo.cfg 10 false) "example.com" Demo.after3
       = Ok (mkState (scraped_data Demo.after3) (visited_urls Demo.after3) rest))
  ∧ (∀ u rest st', queue Demo.after3 = u :: rest →
       loop_body Demo.world (Demo.cfg 10 false) "example.com" Demo.after3 = Ok st' →
       visited_urls st' ≠ visited_urls Demo.after3 →
       (u ∉ visited_urls Demo.after3)
       ∧ visited_urls st' = {[u]} ∪ visited_urls Demo.after3
       ∧ scraped_data st' = scraped_data Demo.after3 ++ [scrape_page Demo.world u]
       ∧ url (scrape_page Demo.world u) = u).
Proof.
  split; [vm_compute; reflexivity|].
  apply (C2_each_url_visited_once Demo.world (Demo.cfg 10 false) "example.com" 3).
  vm_compute; reflexivity.
Defined.

(** ** Failures *)


Lemma start_scraping_valid (W : World) (cfg : config) (fuel : nat)
    (st0 : session_state) (d : string) :
  base_url cfg ≠ "" → is_valid_url W (base_url cfg) = true →
  get_domain W (base_url cfg) = Ok d →
  start_scraping W cfg fuel st0 =
    match process_queue W cfg fuel d (fresh_state cfg) with
    | None => None
    | Some (Raise e) => Some (Raise e)
    | Some (Ok st') => Some (Ok (st', st_success (size (visited_urls st'))))
    end.
Proof.
  intros Hne Hvalid Hd. unfold start_scraping. rewrite Hvalid, Hd.
  destruct (base_url cfg); [contradiction|reflexivity].
Qed.

(** What the handler returns after a crawl is an iteration boundary of the
    loop started on the reset state. *)
Lemma start_scraping_boundary (W : World) (cfg : config) (fuel : nat)
    (st0 st' : session_state) (msg : ui_message) :
  base_url cfg ≠ "" → is_valid_url W (base_url cfg) = true →
  start_scraping W cfg fuel st0 = Some (Ok (st', msg)) →
  ∃ d n, get_domain W (base_url cfg) = Ok d
         ∧ state_after W cfg n d (fresh_state cfg) = Some st'
         ∧ loop_cond cfg st' = false
         ∧ msg = st_success (size (visited_urls st')).
Proof.
  intros Hne Hvalid Hrun.
  destruct (valid_get_domain W _ Hvalid) as (d & Hd & _).
  rewrite (start_scraping_valid W cfg fuel st0 d) in Hrun by assumption.
  destruct (process_queue W cfg fuel d (fresh_state cfg)) as [[st1|e]|] eqn:Hq;
    try discriminate.
  injection Hrun as <- <-.
  apply process_queue_boundary in Hq as [Hstop [n Hn]].
  exists d, n. auto.
Qed.



(** C9: when the seed is empty or is not a valid URL, the handler runs no
    crawl: it returns the session state it was given, unchanged, and shows
    an error message. *)
Theorem C9_invalid_seed_starts_nothing (W : World) (cfg : config) (fuel : nat)
    (st : session_state) :
  base_url cfg = "" ∨ is_valid_url W (base_url cfg) = false →
  ∃ msg, start_scraping W cfg fuel st = Some (Ok (st, st_error msg)).
Proof.
  unfold start_scraping. intros [Hempty | Hinvalid].
  - rewrite Hempty. eexists. reflexivity.
  - rewrite Hinvalid. destruct (PyStr.is_empty (base_url cfg)); eexists; reflexivity.
Qed.

Lemma C9_witness :
  (base_url (mkConfig "example.com/index.html" 10 false) = ""
   ∨ is_valid_url Demo.world (base_url (mkConfig "example.com/index.html" 10 false)) = false)
  ∧ ∃ msg, start_scraping Demo.world (mkConfig "example.com/index.html" 10 false) 5 Demo.after3
           = Some (Ok (Demo.after3, st_error msg)).
Proof.
  assert (base_url (mkConfig "example.com/index.html" 10 false) = ""
          ∨ is_valid_url Demo.world (base_url (mkConfig "example.com/index.html" 10 false)) = false)
    as H by (right; vm_compute; reflexivity).
  split; [exact H|].
  apply (C9_invalid_seed_starts_nothing Demo.world _ 5 Demo.after3 H).
Defined.

(** ** Scope and identity of URLs *)

Lemma in_scope_internal (W : World) (cfg : config) (base_domain link : string) :
  include_external cfg = false → in_scope W cfg base_domain link = true →
  get_domain W link = Ok base_domain.
Proof.
  unfold in_scope. intros ->. cbn.
  destruct (get_domain W link) as [d|e]; [|discriminate].
  intros ->%String.eqb_eq. reflexivity.
Qed.

(** C4: without [include_external], at every iteration boundary every URL of
    the queue, the seed included, has the host of the seed, as [get_domain]
    extracts it and as string equality compares it; with [include_external],
    an iteration appends every link of the page that is not yet visited,
    whatever its host. *)
Theorem C4_frontier_scope (W : World) (seed : string) (pages : nat)
    (base_domain : string) :
  (get_domain W seed = Ok base_domain →
   ∀ n st,
     state_after W (mkConfig seed pages false) n base_domain
       (fresh_state (mkConfig seed pages false)) = Some st →
     Forall (fun u => get_domain W u = Ok base_domain) (queue st))
  ∧ (∀ st u rest, queue st = u :: rest → u ∉ visited_urls st →
       loop_body W (mkConfig seed pages true) base_domain st
       = Ok (mkState (scraped_data st ++ [scrape_page W u])
                     ({[u]} ∪ visited_urls st)
                     (rest ++ List.filter
                                (fun l => negb (bool_decide (l ∈ {[u]} ∪ visited_urls st)))
                                (links (scrape_page W u))))).
Proof.
  split.
  - intros Hseed n st Hn.
    apply (state_after_ind W (mkConfig seed pages false) base_domain
             (fun s => Forall (fun u => get_domain W u = Ok base_domain) (queue s)))
      with (n := n) (st := fresh_state (mkConfig seed pages false)); [| |exact Hn].
    + clear. intros st st' Hall Hc Hb.
      apply loop_cond_true in Hc as [(u & rest & Hq) _].
      rewrite (loop_body_cons W _ base_domain st u rest Hq) in Hb.
      injection Hb as <-. rewrite Hq in Hall. apply Forall_cons in Hall as [_ Hrest].
      destruct (bool_decide (u ∈ visited_urls st)); cbn; [exact Hrest|].
      apply Forall_app. split; [exact Hrest|].
      apply List.Forall_forall. intros l [_ Hl]%List.filter_In.
      apply andb_prop in Hl as [_ Hl].
      apply (in_scope_internal W (mkConfig seed pages false)); [reflexivity|exact Hl].
    + cbn. constructor; [exact Hseed|constructor].
  - intros st u rest Hq Hu.
    rewrite (loop_body_cons W _ base_domain st u rest Hq).
    rewrite bool_decide_eq_false_2 by assumption.
    do 3 f_equal. apply List.filter_ext. intros l.
    rewrite in_scope_external by reflexivity. apply andb_true_r.
Qed.

Lemma C4_witness :
  get_domain Demo.world Demo.seed = Ok "example.com"
  ∧ state_after Demo.world (mkConfig Demo.seed 10 false) 1 "example.com"
      (fresh_state (mkConfig Demo.seed 10 false)) = Some Demo.after1
  ∧ Forall (fun u => get_domain Demo.world u = Ok "example.com") (queue Demo.after1)
  ∧ queue (fresh_state (Demo.cfg 10 true)) = [Demo.seed]
  ∧ (Demo.seed ∉ visited_urls (fresh_state (Demo.cfg 10 true)))
  ∧ loop_body Demo.world (mkConfig Demo.seed 10 true) "example.com"
      (fresh_state (Demo.cfg 10 true))
    = Ok (mkState [scrape_page Demo.world Demo.seed] {[Demo.seed]}
            ["https://example.com/"; "https://example.com#top";
             "https://example.com/about"; "https://example.com/missing";
             "http://other.org/z"]).
Proof.
  destruct (C4_frontier_scope Demo.world Demo.seed 10 "example.com") as [Hin Hext].
  assert (get_domain Demo.world Demo.seed = Ok "example.com") as Hd
    by (vm_compute; reflexivity).
  assert (state_after Demo.world (mkConfig Demo.seed 10 false) 1 "example.com"
            (fresh_state (mkConfig Demo.seed 10 false)) = Some Demo.after1) as H1
    by (vm_compute; reflexivity).
  assert (Demo.seed ∉ visited_urls (fresh_state (Demo.cfg 10 true))) as Hfresh
    by (cbn; apply not_elem_of_empty).
  split; [exact Hd|]. split; [exact H1|].
  split; [exact (Hin Hd 1 Demo.after1 H1)|].
  split; [reflexivity|]. split; [exact Hfresh|].
  rewrite (Hext (fresh_state (Demo.cfg 10 true)) Demo.seed [] eq_refl Hfresh).
  vm_compute. reflexivity.
Defined.

(** C10: membership in [visited_urls] is equality of strings.  Two URLs that
    differ as strings, however little, and that are at the head of the queue
    while neither is visited and the budget allows two more pages, are both
    visited, each with a record of its own under its own url. *)
Theorem C10_distinct_strings_are_distinct_pages (W : World) (cfg : config)
    (base_domain : string) (st : session_state) (u1 u2 : string) (rest : list string) :
  u1 ≠ u2 →
  queue st = u1 :: u2 :: rest →
  u1 ∉ visited_urls st → u2 ∉ visited_urls st →
  size (visited_urls st) + 2 ≤ max_pages cfg →
  ∃ st2, state_after W cfg 2 base_domain st = Some st2
         ∧ scraped_data st2 = scraped_data st ++ [scrape_page W u1; scrape_page W u2]
         ∧ visited_urls st2 = {[u1; u2]} ∪ visited_urls st
         ∧ url (scrape_page W u1) = u1
         ∧ url (scrape_page W u2) = u2.
Proof.
  intros Hne Hq Hu1 Hu2 Hbudget.
  pose proof (loop_body_cons W cfg base_domain st u1 (u2 :: rest) Hq) as Hb1.
  rewrite bool_decide_eq_false_2 in Hb1 by assumption.
  destruct (loop_body W cfg base_domain st) as [st1|] eqn:Hst1; [|discriminate].
  injection Hb1 as Hb1.
  assert (visited_urls st1 = {[u1]} ∪ visited_urls st) as Hv1 by (rewrite Hb1; reflexivity).
  assert (scraped_data st1 = scraped_data st ++ [scrape_page W u1]) as Hd1
    by (rewrite Hb1; reflexivity).
  assert (∃ rest1, queue st1 = u2 :: rest1) as [rest1 Hq1]
    by (rewrite Hb1; cbn; eauto).
  assert (u2 ∉ visited_urls st1) as Hu2'.
  { rewrite Hv1, elem_of_union, elem_of_singleton. intros [Heq|Hin]; [|contradiction].
    apply Hne. symmetry. exact Heq. }
  pose proof (loop_body_cons W cfg base_domain st1 u2 rest1 Hq1) as Hb2.
  rewrite bool_decide_eq_false_2 in Hb2 by assumption.
  eexists. split; [|split; [|split; [|split]]].
  - cbn [state_after].
    rewrite (loop_cond_intro cfg st u1 (u2 :: rest) Hq) by lia.
    rewrite Hst1.
    rewrite (loop_cond_intro cfg st1 u2 rest1 Hq1).
    + rewrite Hb2. reflexivity.
    + rewrite Hv1, size_union, size_singleton by (apply disjoint_singleton_l; assumption). lia.
  - cbn. rewrite Hd1, <- app_assoc. reflexivity.
  - cbn. rewrite Hv1. apply set_eq. intros x.
    rewrite !elem_of_union, !elem_of_singleton. tauto.
  - apply scrape_page_url.
  - apply scrape_page_url.
Qed.

Lemma C10_witness :
  "https://example.com/" ≠ "https://example.com#top"
  ∧ queue Demo.after1
    = "https://example.com/" :: "https://example.com#top"
      :: ["https://example.com/about"; "https://example.com/missing"]
  ∧ visited_urls Demo.after1 = {["https://example.com"]}
  ∧ size (visited_urls Demo.after1) + 2 ≤ max_pages (Demo.cfg 10 false)
  ∧ ∃ st2, state_after Demo.world (Demo.cfg 10 false) 2 "example.com" Demo.after1 = Some st2
           ∧ scraped_data st2
             = scraped_data Demo.after1
               ++ [scrape_page Demo.world "https://example.com/";
                   scrape_page Demo.world "https://example.com#top"]
           ∧ visited_urls st2
             = {["https://example.com/"; "https://example.com#top"]} ∪ visited_urls Demo.after1
           ∧ url (scrape_page Demo.world "https://example.com/") = "https://example.com/"
           ∧ url (scrape_page Demo.world "https://example.com#top") = "https://example.com#top".
Proof.
  split; [discriminate|]. split; [reflexivity|].
  split; [vm_compute; reflexivity|]. split; [vm_compute; lia|].
  apply (C10_distinct_strings_are_distinct_pages Demo.world (Demo.cfg 10 false)
           "example.com" Demo.after1 "https://example.com/" "https://example.com#top"
           ["https://example.com/about"; "https://example.com/missing"]).
  - discriminate.
  - reflexivity.
  - replace (visited_urls Demo.after1) with ({["https://example.com"]} : gset string)
      by (vm_compute; reflexivity).
    rewrite elem_of_singleton. discriminate.
  - replace (visited_urls Demo.after1) with ({["https://example.com"]} : gset string)
      by (vm_compute; reflexivity).
    rewrite elem_of_singleton. discriminate.
  - vm_compute. lia.
Defined.

(** ** The fields of a page *)

Lemma take_length (n : nat) (s : string) : String.length (PyStr.take n s) ≤ n.
Proof.
  revert s. induction n as [|n IH]; intros [|c s]; cbn; try lia.
  specialize (IH s). lia.
Qed.

Lemma str_length_app (a b : string) :
  String.length (a +:+ b) = String.length a + String.length b.
Proof.
  induction a as [|c a IH]; [reflexivity|].
  change (String c a +:+ b) with (String c (a +:+ b)). cbn. rewrite IH. reflexivity.
Qed.

(** C5, as stated, fails on a page that is fetched with status 200 and
    parsed, and one href of which makes [urljoin] raise: the record is the
    degraded one, and its content is the error text, which is not cut.  Here
    the message quotes a host of 5000 characters and the content has 5069
    characters. *)
Lemma C5_counterexample :
  requests_get LongHref.world "https://example.com"
    = Ok (Requests.mkResponse "page" 200)
  ∧ raise_for_status LongHref.world (Requests.mkResponse "page" 200) = Ok tt
  ∧ html_parser LongHref.world "page" = Ok LongHref.page
  ∧ N.of_nat (String.length (content (scrape_page LongHref.world "https://example.com")))
    = 5069%N
  ∧ ¬ (∀ (W : World) (u : string) (response : Requests.response),
         requests_get W u = Ok response →
         raise_for_status W response = Ok tt →
         String.length (content (scrape_page W u)) ≤ 5000).
Proof.
  split; [reflexivity|]. split; [reflexivity|]. split; [reflexivity|].
  split; [vm_compute; reflexivity|].
  intros Hclaim.
  specialize (Hclaim LongHref.world "https://example.com"
                (Requests.mkResponse "page" 200) eq_refl eq_refl).
  apply Nat.leb_le in Hclaim. vm_compute in Hclaim. discriminate.
Qed.

(** C5, amended: the content of a record that [scrape_page] makes without
    an exception (the fetch, the status check, the parsing and the
    resolution of every href succeed) has at most 5000 characters; when
    something raises, also after a successful fetch, the content of the
    record is "Error scraping page: " followed by the whole error text,
    21 characters more than that text. *)
Theorem C5_content_at_most_5000 (W : World) (u : string) :
  (∀ page, scrape_try W u = Ok page →
           scrape_page W u = page ∧ String.length (content page) ≤ 5000)
  ∧ (∀ e, scrape_try W u = Raise e →
          content (scrape_page W u) = "Error scraping page: " +:+ e
          ∧ String.length (content (scrape_page W u)) = 21 + String.length e).
Proof.
  split.
  - intros page Hpage. split; [exact (scrape_page_Ok W u page Hpage)|].
    apply scrape_try_Ok in Hpage as (response & parsed & _ & _ & _ & _ & ->).
    apply take_length.
  - intros e Hraise. rewrite (scrape_page_Raise W u e Hraise). cbn [content].
    split; [reflexivity|]. rewrite str_length_app. reflexivity.
Qed.

Lemma C5_witness :
  scrape_try Demo.world Demo.seed = Ok (scrape_page Demo.world Demo.seed)
  ∧ String.length (content (scrape_page Demo.world Demo.seed)) ≤ 5000
  ∧ scrape_try Demo.world "https://example.com/missing"
    = Raise "404 Client Error: Not Found"
  ∧ content (scrape_page Demo.world "https://example.com/missing")
    = "Error scraping page: 404 Client Error: Not Found"
  ∧ String.length (content (scrape_page Demo.world "https://example.com/missing"))
    = 21 + String.length "404 Client Error: Not Found".
Proof.
  assert (scrape_try Demo.world Demo.seed = Ok (scrape_page Demo.world Demo.seed)) as H
    by (vm_compute; reflexivity).
  assert (scrape_try Demo.world "https://example.com/missing"
          = Raise "404 Client Error: Not Found") as Hraise
    by (vm_compute; reflexivity).
  split; [exact H|].
  split; [exact (proj2 (proj1 (C5_content_at_most_5000 Demo.world Demo.seed) _ H))|].
  split; [exact Hraise|].
  exact (proj2 (C5_content_at_most_5000 Demo.world "https://example.com/missing")
           _ Hraise).
Defined.

(** C7, on a page served with status 200 whose title element is empty
    ([<title></title>]): the document has a title element, so the sentinel
    is not used, and the string of that element is [None], which is what the
    record gets as its title. *)
Theorem C7_empty_title_element_gives_None :
  requests_get Demo.world "https://example.com/about"
    = Ok (Requests.mkResponse "about" 200)
  ∧ html_parser Demo.world "about" = Ok Demo.about
  ∧ Bs4.title Demo.about = Some (Tag "title" [] [])
  ∧ scrape_try Demo.world "https://example.com/about"
    = Ok (mkPage "https://example.com/about" None "About us Mail Menu" [] 200)
  ∧ title (scrape_page Demo.world "https://example.com/about") = None.
Proof. repeat split; vm_compute; reflexivity. Qed.

(** The title of a page scraped without an exception, by cases on the
    document: the sentinel when there is no title element, else the string
    of the first one. *)
Lemma scrape_title_cases (W : World) (u : string) (page : PageRecord) :
  scrape_try W u = Ok page →
  ∃ response parsed,
    requests_get W u = Ok response
    ∧ html_parser W (Requests.content response) = Ok parsed
    ∧ match Bs4.title (Bs4.decompose_all ["script"; "style"] parsed) with
      | None => title page = Some "No Title"
      | Some t => title page = Bs4.tag_string t
      end.
Proof.
  intros (response & parsed & Hget & _ & Hparse & _ & ->)%scrape_try_Ok.
  exists response, parsed. split; [exact Hget|]. split; [exact Hparse|].
  cbn. destruct (Bs4.title _); reflexivity.
Qed.

(** ** Links *)

(** The links of a page are the resolved hrefs that are valid, no more. *)
Lemma extract_links_elem (W : World) (u : string) (anchors : list node)
    (ls : list string) (full : string) :
  extract_links W u anchors = Ok ls →
  full ∈ ls ↔
  ∃ link href, link ∈ anchors ∧ Bs4.getitem link "href" = Ok href
               ∧ Urllib.urljoin W u href = Ok full ∧ is_valid_url W full = true.
Proof.
  revert ls. induction anchors as [|a anchors IH]; intros ls H; cbn in H.
  - injection H as <-. split.
    + intros Hin. inversion Hin.
    + intros (link & _ & Hin & _). inversion Hin.
  - apply bind_Ok in H as (href & Hhref & H).
    apply bind_Ok in H as (f & Hjoin & H).
    apply bind_Ok in H as (more & Hmore & H).
    injection H as <-. specialize (IH _ Hmore). split.
    + intros Hin.
      assert (full = f ∧ is_valid_url W f = true ∨ full ∈ more) as [[-> Hv]|Hin'].
      { destruct (is_valid_url W f); [|right; exact Hin].
        apply elem_of_cons in Hin as [->|Hin]; [left; split; reflexivity|right; exact Hin]. }
      * exists a, href. split; [left|]; auto.
      * apply IH in Hin' as (link & h & Hl & Hrest).
        exists link, h. split; [right|]; assumption.
    + intros (link & h & Hl & Hh & Hj & Hv).
      apply elem_of_cons in Hl as [->|Hl].
      * rewrite Hhref in Hh. injection Hh as <-.
        rewrite Hjoin in Hj. injection Hj as <-.
        rewrite Hv. left.
      * assert (full ∈ more) as Hin
          by (apply IH; exists link, h; repeat split; assumption).
        destruct (is_valid_url W f); [right|]; exact Hin.
Qed.

(** A URL whose scheme is not one of [uses_relative] is not resolved against
    the base. *)
Lemma urljoin_mailto (W : World) (base : string) :
  Urllib.urljoin W base "mailto:test@example.com" = Ok "mailto:test@example.com"
  ∨ ∃ e, Urllib.urljoin W base "mailto:test@example.com" = Raise e.
Proof.
  unfold Urllib.urljoin. destruct (PyStr.is_empty base); [left; reflexivity|].
  cbn [PyStr.is_empty].
  destruct (Urllib.urlparse_with W base "") as [b|e]; cbn; [|right; eauto].
  replace (Urllib.urlparse_with W "mailto:test@example.com" (Urllib.scheme b))
    with (Ok (Urllib.mkParse "mailto" "" "test@example.com" "" "" ""))
    by (vm_compute; reflexivity).
  cbn. rewrite orb_true_r. left. reflexivity.
Qed.

Lemma urljoin_javascript (W : World) (base : string) :
  Urllib.urljoin W base "javascript:void(0)" = Ok "javascript:void(0)"
  ∨ ∃ e, Urllib.urljoin W base "javascript:void(0)" = Raise e.
Proof.
  unfold Urllib.urljoin. destruct (PyStr.is_empty base); [left; reflexivity|].
  cbn [PyStr.is_empty].
  destruct (Urllib.urlparse_with W base "") as [b|e]; cbn; [|right; eauto].
  replace (Urllib.urlparse_with W "javascript:void(0)" (Urllib.scheme b))
    with (Ok (Urllib.mkParse "javascript" "" "void(0)" "" "" ""))
    by (vm_compute; reflexivity).
  cbn. rewrite orb_true_r. left. reflexivity.
Qed.

Lemma mailto_javascript_no_links (W : World) (u : string) (anchors : list node) :
  Bs4.attr "href" <$> anchors
    = [Some "mailto:test@example.com"; Some "javascript:void(0)"] →
  extract_links W u anchors = Ok [] ∨ ∃ e, extract_links W u anchors = Raise e.
Proof.
  destruct anchors as [|a1 [|a2 [|a3 anchors]]]; try discriminate.
  cbn [fmap list_fmap]. intros H. injection H as H1 H2.
  cbn [extract_links]. unfold Bs4.getitem. rewrite H1, H2. cbn.
  destruct (urljoin_mailto W u) as [-> | [e ->]]; cbn; [|right; eauto].
  destruct (urljoin_javascript W u) as [-> | [e ->]]; cbn; [|right; eauto].
  left.
  replace (is_valid_url W "javascript:void(0)") with false by (vm_compute; reflexivity).
  replace (is_valid_url W "mailto:test@example.com") with false by (vm_compute; reflexivity).
  reflexivity.
Qed.

Lemma queue_valid (W : World) (cfg : config) (base_domain : string)
    (n : nat) (st : session_state) :
  is_valid_url W (base_url cfg) = true →
  state_after W cfg n base_domain (fresh_state cfg) = Some st →
  Forall (valid W) (queue st).
Proof.
  intros Hseed Hn.
  apply (state_after_ind W cfg base_domain (fun s => Forall (valid W) (queue s)))
    with (n := n) (st := fresh_state cfg); [| |exact Hn].
  - clear. intros st st' Hall Hc Hb.
    apply loop_cond_true in Hc as [(u & rest & Hq) _].
    rewrite (loop_body_cons W cfg base_domain st u rest Hq) in Hb.
    injection Hb as <-. rewrite Hq in Hall. apply Forall_cons in Hall as [_ Hrest].
    destruct (bool_decide (u ∈ visited_urls st)); cbn; [exact Hrest|].
    apply Forall_app. split; [exact Hrest|].
    apply List.Forall_forall. intros l [Hl _]%List.filter_In.
    pose proof (scrape_page_links_valid W u) as Hvalid.
    rewrite List.Forall_forall in Hvalid. apply Hvalid, Hl.
  - cbn. constructor; [exact Hseed|constructor].
Qed.

(** C8: every link of a record parses with a scheme and a network location;
    a resolved href that [is_valid_url] rejects is in no record's links and
    never in the queue of a crawl; the links of a page scraped without an
    exception are exactly the resolved hrefs of its anchors that are valid;
    and a page whose anchors have the hrefs "mailto:test@example.com" and
    "javascript:void(0)", and no other, has no link. *)
Theorem C8_links_have_scheme_and_host (W : World) (u : string) :
  Forall (fun l => ∃ r, Urllib.urlparse W l = Ok r
                        ∧ Urllib.scheme r ≠ "" ∧ Urllib.netloc r ≠ "")
         (links (scrape_page W u))
  ∧ (∀ full, is_valid_url W full = false →
       (full ∉ links (scrape_page W u))
       ∧ ∀ cfg base_domain n st,
           is_valid_url W (base_url cfg) = true →
           state_after W cfg n base_domain (fresh_state cfg) = Some st →
           full ∉ queue st)
  ∧ (∀ page, scrape_try W u = Ok page →
       ∃ response parsed,
         requests_get W u = Ok response
         ∧ html_parser W (Requests.content response) = Ok parsed
         ∧ ∀ full,
             full ∈ links page ↔
             ∃ link href,
               link ∈ Bs4.find_all_with "a" "href"
                        (Bs4.decompose_all ["script"; "style"] parsed)
               ∧ Bs4.getitem link "href" = Ok href
               ∧ Urllib.urljoin W u href = Ok full
               ∧ is_valid_url W full = true)
  ∧ (∀ response parsed,
       requests_get W u = Ok response →
       html_parser W (Requests.content response) = Ok parsed →
       Bs4.attr "href" <$> Bs4.find_all_with "a" "href"
                             (Bs4.decompose_all ["script"; "style"] parsed)
         = [Some "mailto:test@example.com"; Some "javascript:void(0)"] →
       links (scrape_page W u) = []).
Proof.
  split; [|split; [|split]].
  - eapply Forall_impl; [apply scrape_page_links_valid|].
    intros l Hl. apply is_valid_url_parse, Hl.
  - intros full Hfull. split.
    + intros Hin. pose proof (scrape_page_links_valid W u) as Hvalid.
      rewrite Forall_forall in Hvalid. specialize (Hvalid _ Hin).
      unfold valid in Hvalid. congruence.
    + intros cfg base_domain n st Hseed Hn Hin.
      pose proof (queue_valid W cfg base_domain n st Hseed Hn) as Hvalid.
      rewrite Forall_forall in Hvalid. specialize (Hvalid _ Hin).
      unfold valid in Hvalid. congruence.
  - intros page Hpage.
    apply scrape_try_Ok in Hpage as (response & parsed & Hget & _ & Hparse & Hlinks & _).
    exists response, parsed. split; [exact Hget|]. split; [exact Hparse|].
    intros full. apply extract_links_elem, Hlinks.
  - intros response parsed Hget Hparse Hrefs.
    unfold scrape_page, scrape_try. rewrite Hget. cbn.
    destruct (raise_for_status W response) as [[]|e]; cbn; [|reflexivity].
    rewrite Hparse. cbn.
    destruct (mailto_javascript_no_links W u _ Hrefs) as [-> | [e ->]]; reflexivity.
Qed.

Lemma C8_witness :
  is_valid_url Demo.world "mailto:test@example.com" = false
  ∧ ("mailto:test@example.com" ∉ links (scrape_page Demo.world "https://example.com/about"))
  ∧ requests_get Demo.world "https://example.com/about" = Ok (Requests.mkResponse "about" 200)
  ∧ html_parser Demo.world "about" = Ok Demo.about
  ∧ Bs4.attr "href" <$> Bs4.find_all_with "a" "href"
                          (Bs4.decompose_all ["script"; "style"] Demo.about)
    = [Some "mailto:test@example.com"; Some "javascript:void(0)"]
  ∧ links (scrape_page Demo.world "https://example.com/about") = [].
Proof.
  destruct (C8_links_have_scheme_and_host Demo.world "https://example.com/about")
    as (_ & Hout & _ & Hnone).
  assert (is_valid_url Demo.world "mailto:test@example.com" = false) as Hinvalid
    by (vm_compute; reflexivity).
  assert (Bs4.attr "href" <$> Bs4.find_all_with "a" "href"
                                (Bs4.decompose_all ["script"; "style"] Demo.about)
          = [Some "mailto:test@example.com"; Some "javascript:void(0)"]) as Hrefs
    by (vm_compute; reflexivity).
  split; [exact Hinvalid|]. split; [exact (proj1 (Hout _ Hinvalid))|].
  split; [reflexivity|]. split; [reflexivity|]. split; [exact Hrefs|].
  exact (Hnone (Requests.mkResponse "about" 200) Demo.about eq_refl eq_refl Hrefs).
Defined.

(** ** Text content *)

Section CollapseFacts.

Lemma str_app_cons (c : ascii) (s t : string) : String c s +:+ t = String c (s +:+ t).
Proof. reflexivity. Qed.

Lemma str_app_nil_r (s : string) : s +:+ "" = s.
Proof. induction s as [|c s IH]; [reflexivity|]. rewrite str_app_cons, IH. reflexivity. Qed.

Lemma cons_word_app (w : string) (x y : list string) :
  Spec.cons_word w (x ++ y) = Spec.cons_word w x ++ y.
Proof. unfold Spec.cons_word. destruct (PyStr.is_empty w); reflexivity. Qed.

Lemma words_from_cons (c : ascii) (s : string) :
  Spec.words_from (String c s) =
    if PyStr.isspace c
    then ("", Spec.cons_word (fst (Spec.words_from s)) (snd (Spec.words_from s)))
    else (String c (fst (Spec.words_from s)), snd (Spec.words_from s)).
Proof. cbn [Spec.words_from]. destruct (Spec.words_from s). reflexivity. Qed.

(** The words of two texts put side by side with a space in between. *)
Lemma words_from_app_space (a b : string) :
  Spec.words_from (a +:+ String " " b)
  = (fst (Spec.words_from a), snd (Spec.words_from a) ++ Spec.words b).
Proof.
  induction a as [|c a IH].
  - change ("" +:+ String " " b) with (String " " b).
    rewrite words_from_cons. reflexivity.
  - rewrite str_app_cons, !words_from_cons, IH. cbn [fst snd].
    destruct (PyStr.isspace c); cbn [fst snd]; [|reflexivity].
    rewrite cons_word_app. reflexivity.
Qed.

Lemma words_app_space (a b : string) :
  Spec.words (a +:+ " " +:+ b) = Spec.words a ++ Spec.words b.
Proof.
  change (" " +:+ b) with (String " " b).
  unfold Spec.words at 1. rewrite words_from_app_space. cbn [fst snd].
  rewrite cons_word_app. reflexivity.
Qed.

Lemma words_from_nonempty (s : string) :
  Forall (fun w => w ≠ "") (snd (Spec.words_from s)).
Proof.
  induction s as [|c s IH]; [constructor|].
  rewrite words_from_cons. destruct (PyStr.isspace c); cbn [snd]; [|exact IH].
  unfold Spec.cons_word. destruct (fst (Spec.words_from s)) eqn:E; cbn; [exact IH|].
  constructor; [discriminate|exact IH].
Qed.

Lemma words_nonempty (s : string) : Forall (fun w => w ≠ "") (Spec.words s).
Proof.
  unfold Spec.words, Spec.cons_word.
  destruct (fst (Spec.words_from s)) eqn:E; cbn; [apply words_from_nonempty|].
  constructor; [discriminate|apply words_from_nonempty].
Qed.

Lemma join_cons (sep w : string) (l : list string) :
  l ≠ [] → PyStr.join sep (w :: l) = w +:+ sep +:+ PyStr.join sep l.
Proof. destruct l; [contradiction|reflexivity]. Qed.

Lemma join_nonempty (sep : string) (l : list string) :
  Forall (fun w => w ≠ "") l → l ≠ [] → PyStr.join sep l ≠ "".
Proof.
  intros Hall Hne. destruct Hall as [|w l Hw _]; [contradiction|].
  destruct w as [|c w]; [contradiction|].
  destruct l; cbn [PyStr.join]; [discriminate|]. rewrite str_app_cons. discriminate.
Qed.

Lemma str_app_assoc (s t r : string) : (s +:+ t) +:+ r = s +:+ t +:+ r.
Proof.
  induction s as [|c s IH]; [reflexivity|]. rewrite !str_app_cons, IH. reflexivity.
Qed.

Lemma join_app (sep : string) (l1 l2 : list string) :
  l1 ≠ [] → l2 ≠ [] →
  PyStr.join sep (l1 ++ l2) = PyStr.join sep l1 +:+ sep +:+ PyStr.join sep l2.
Proof.
  intros H1 H2. induction l1 as [|w l1 IH]; [contradiction|].
  destruct l1 as [|w' l1].
  - cbn [app]. apply join_cons, H2.
  - change ((w :: w' :: l1) ++ l2) with (w :: ((w' :: l1) ++ l2)).
    rewrite join_cons by discriminate. rewrite IH by discriminate.
    rewrite (join_cons sep w (w' :: l1)) by discriminate.
    rewrite !str_app_assoc. reflexivity.
Qed.

Lemma words_join (ts : list string) :
  Spec.words (PyStr.join " " ts) = concat (Spec.words <$> ts).
Proof.
  induction ts as [|t ts IH]; [reflexivity|].
  destruct ts as [|t' ts].
  - cbn. rewrite app_nil_r. reflexivity.
  - rewrite join_cons by discriminate. rewrite words_app_space, IH. reflexivity.
Qed.

(** Where every string is, once stripped, already collapsed, joining the
    stripped strings that are not empty collapses the whole text. *)
Lemma join_words_stripped (ts : list string) :
  Forall (fun t => Spec.collapse_whitespace t = PyStr.strip PyStr.isspace t) ts →
  let R := concat (Spec.words <$> ts) in
  let F := List.filter PyStr.truthy (PyStr.strip PyStr.isspace <$> ts) in
  PyStr.join " " R = PyStr.join " " F ∧ (R = [] ↔ F = []).
Proof.
  induction 1 as [|t ts Ht _ IH]; [cbn; tauto|].
  cbn zeta in *. destruct IH as [IHjoin IHnil].
  cbn [fmap list_fmap concat List.filter].
  change (list_fmap string string (PyStr.strip PyStr.isspace) ts)
    with (PyStr.strip PyStr.isspace <$> ts).
  change (list_fmap string (list string) Spec.words ts) with (Spec.words <$> ts).
  unfold Spec.collapse_whitespace in Ht.
  destruct (Spec.words t) as [|w wl] eqn:Hw.
  - cbn in Ht. rewrite <- Ht. cbn. split; assumption.
  - assert (PyStr.strip PyStr.isspace t ≠ "") as Hne.
    { rewrite <- Ht. apply join_nonempty; [|discriminate].
      rewrite <- Hw. apply words_nonempty. }
    assert (PyStr.truthy (PyStr.strip PyStr.isspace t) = true) as ->.
    { destruct (PyStr.strip PyStr.isspace t); [contradiction|reflexivity]. }
    split; [|split; discriminate].
    destruct (concat (Spec.words <$> ts)) as [|r R] eqn:HR.
    + rewrite app_nil_r, Ht.
      rewrite (proj1 IHnil eq_refl). reflexivity.
    + rewrite join_app by discriminate. rewrite Ht, IHjoin.
      symmetry. apply join_cons. intros HF.
      apply IHnil in HF. discriminate.
Qed.

End CollapseFacts.

(** C6, as stated, fails on the home page of the demo site: its text string
    "  Hello   world  " keeps its inner run of three spaces in the content,
    which is therefore not the collapsed visible text.  It fails too on a
    page that is fetched and parsed and one href of which makes [urljoin]
    raise: the content is then the error text, not the text of the page. *)
Lemma C6_counterexample :
  content (scrape_page Demo.world Demo.seed) = "Home Hello   world again About"
  ∧ Spec.content_of Demo.home = "Home Hello world again About"
  ∧ requests_get Broken.world "https://example.com"
    = Ok (Requests.mkResponse "page" 200)
  ∧ raise_for_status Broken.world (Requests.mkResponse "page" 200) = Ok tt
  ∧ html_parser Broken.world "page" = Ok Broken.page
  ∧ content (scrape_page Broken.world "https://example.com")
    = "Error scraping page: Invalid IPv6 URL"
  ∧ Spec.content_of Broken.page = "Welcome Welcome fine broken"
  ∧ ¬ (∀ (W : World) (u : string) (page : PageRecord)
         (response : Requests.response) (parsed : soup),
         scrape_try W u = Ok page →
         requests_get W u = Ok response →
         html_parser W (Requests.content response) = Ok parsed →
         content page = Spec.content_of parsed)
  ∧ ¬ (∀ (W : World) (u : string) (response : Requests.response) (parsed : soup),
         requests_get W u = Ok response →
         raise_for_status W response = Ok tt →
         html_parser W (Requests.content response) = Ok parsed →
         content (scrape_page W u) = Spec.content_of parsed).
Proof.
  split; [vm_compute; reflexivity|]. split; [vm_compute; reflexivity|].
  split; [reflexivity|]. split; [reflexivity|]. split; [reflexivity|].
  split; [vm_compute; reflexivity|]. split; [vm_compute; reflexivity|]. split.
  - intros Hclaim.
    assert (scrape_try Demo.world Demo.seed = Ok (scrape_page Demo.world Demo.seed))
      as Hpage by (vm_compute; reflexivity).
    specialize (Hclaim Demo.world Demo.seed _ (Requests.mkResponse "home" 200) Demo.home
                  Hpage eq_refl eq_refl).
    vm_compute in Hclaim. discriminate.
  - intros Hclaim.
    specialize (Hclaim Broken.world "https://example.com"
                  (Requests.mkResponse "page" 200) Broken.page eq_refl eq_refl eq_refl).
    vm_compute in Hclaim. discriminate.
Qed.

(** C6, amended: the content of a page scraped without an exception is made
    of the text strings of the document (script and style elements removed),
    each stripped of the whitespace at its two ends, the empty ones left out,
    joined by single spaces, and cut to 5000 characters after the joining.
    Whitespace inside a string is kept; so the content is the collapsed
    visible text when every string is, once stripped, already collapsed. *)
Theorem C6_content_is_stripped_strings_joined (W : World) (u : string)
    (page : PageRecord) :
  scrape_try W u = Ok page →
  ∃ response parsed,
    requests_get W u = Ok response
    ∧ html_parser W (Requests.content response) = Ok parsed
    ∧ let strings := Bs4.text_strings (Bs4.decompose_all ["script"; "style"] parsed) in
      content page
      = PyStr.take 5000
          (PyStr.join " "
             (List.filter PyStr.truthy (PyStr.strip PyStr.isspace <$> strings)))
      ∧ (Forall (fun t => Spec.collapse_whitespace t = PyStr.strip PyStr.isspace t)
                strings →
         content page = Spec.content_of parsed).
Proof.
  intros (response & parsed & Hget & _ & Hparse & _ & ->)%scrape_try_Ok.
  exists response, parsed. split; [exact Hget|]. split; [exact Hparse|].
  cbn zeta. split; [reflexivity|].
  intros Hall. cbn [content]. unfold Spec.content_of, Spec.visible_text.
  unfold Spec.collapse_whitespace at 1. rewrite words_join.
  destruct (join_words_stripped _ Hall) as [-> _]. reflexivity.
Qed.

Lemma C6_witness :
  scrape_try Demo.world "https://example.com/about"
    = Ok (scrape_page Demo.world "https://example.com/about")
  ∧ Forall (fun t => Spec.collapse_whitespace t = PyStr.strip PyStr.isspace t)
           (Bs4.text_strings (Bs4.decompose_all ["script"; "style"] Demo.about))
  ∧ content (scrape_page Demo.world "https://example.com/about")
    = Spec.content_of Demo.about.
Proof.
  assert (scrape_try Demo.world "https://example.com/about"
          = Ok (scrape_page Demo.world "https://example.com/about")) as Hpage
    by (vm_compute; reflexivity).
  assert (Forall (fun t => Spec.collapse_whitespace t = PyStr.strip PyStr.isspace t)
            (Bs4.text_strings (Bs4.decompose_all ["script"; "style"] Demo.about)))
    as Hall by (repeat constructor).
  split; [exact Hpage|]. split; [exact Hall|].
  destruct (C6_content_is_stripped_strings_joined Demo.world "https://example.com/about"
              _ Hpage) as (response & parsed & Hget & Hparse & _ & Hcollapsed).
  injection Hget as <-. injection Hparse as <-.
  exact (Hcollapsed Hall).
Defined.


(** * Further properties of the script *)

(** ** The loop, from any session state *)

(** What one iteration does to the records and to the visited set. *)
Lemma loop_body_grows (W : World) (cfg : config) (base_domain : string)
    (st st' : session_state) :
  loop_cond cfg st = true → loop_body W cfg base_domain st = Ok st' →
  (scraped_data st' = scraped_data st ∧ visited_urls st' = visited_urls st)
  ∨ ∃ u, (u ∉ visited_urls st)
         ∧ scraped_data st' = scraped_data st ++ [scrape_page W u]
         ∧ visited_urls st' = {[u]} ∪ visited_urls st.
Proof.
  intros [(u & rest & Hq) _]%loop_cond_true Hb.
  rewrite (loop_body_cons W cfg base_domain st u rest Hq) in Hb. injection Hb as <-.
  destruct (bool_decide (u ∈ visited_urls st)) eqn:Hu; cbn; [left; auto|].
  apply bool_decide_eq_false in Hu. right. exists u. auto.
Qed.

Lemma state_after_grows (W : World) (cfg : config) (base_domain : string)
    (n : nat) (st st' : session_state) :
  state_after W cfg n base_domain st = Some st' →
  scraped_data st `prefix_of` scraped_data st'
  ∧ visited_urls st ⊆ visited_urls st'
  ∧ length (scraped_data st') ≤ length (scraped_data st) + n.
Proof.
  revert st. induction n as [|n IH]; intros st H; cbn in H.
  - injection H as <-. split; [reflexivity|]. split; [reflexivity|lia].
  - destruct (loop_cond cfg st) eqn:Hc; [|discriminate].
    destruct (loop_body W cfg base_domain st) as [st1|e] eqn:Hb; [|discriminate].
    destruct (IH _ H) as (Hpre & Hsub & Hlen).
    destruct (loop_body_grows W cfg base_domain st st1 Hc Hb)
      as [[Hd Hv] | (u & _ & Hd & Hv)]; rewrite Hd, Hv in *.
    + split; [exact Hpre|]. split; [exact Hsub|lia].
    + split; [|split].
      * etrans; [|exact Hpre]. apply prefix_app_r. reflexivity.
      * etrans; [|exact Hsub]. apply union_subseteq_r.
      * rewrite length_app in Hlen. cbn in Hlen. lia.
Qed.

(** X1: whatever the session state it starts on, [process_queue] returns
    without raising, and when it returns the queue is empty or the visited
    set has at least [max_pages] members. *)
Theorem X1_process_queue_returns (W : World) (cfg : config) (base_domain : string)
    (st : session_state) :
  ∃ fuel st',
    (∀ fuel', fuel ≤ fuel' →
       process_queue W cfg fuel' base_domain st = Some (Ok st'))
    ∧ (queue st' = [] ∨ max_pages cfg ≤ size (visited_urls st')).
Proof.
  destruct (process_queue_terminates W cfg base_domain st) as (fuel & st' & Hrun).
  exists fuel, st'. split.
  - intros fuel' Hle. exact (process_queue_more_fuel W cfg base_domain _ _ _ _ Hrun Hle).
  - apply process_queue_boundary in Hrun as [Hstop _].
    unfold loop_cond in Hstop. apply andb_false_iff in Hstop as [Hq|Hn].
    + left. apply negb_false_iff, bool_decide_eq_true in Hq. exact Hq.
    + right. apply Nat.ltb_ge, Hn.
Qed.

(** X2: the loop only appends records and only adds to the visited set:
    after [n] more iterations the records are the old ones followed by at
    most [n] new ones, and every URL that was visited still is. *)
Theorem X2_records_only_appended (W : World) (cfg : config) (base_domain : string)
    (n : nat) (st st' : session_state) :
  state_after W cfg n base_domain st = Some st' →
  (∃ new, scraped_data st' = scraped_data st ++ new ∧ length new ≤ n)
  ∧ visited_urls st ⊆ visited_urls st'.
Proof.
  intros H. apply state_after_grows in H as ([new Hnew] & Hsub & Hlen).
  split; [|exact Hsub]. exists new. split; [exact Hnew|].
  rewrite Hnew, length_app in Hlen. lia.
Qed.

Lemma X2_witness :
  state_after Demo.world (Demo.cfg 10 false) 2 "example.com" Demo.after1
    = Some Demo.after3
  ∧ (∃ new, scraped_data Demo.after3 = scraped_data Demo.after1 ++ new ∧ length new ≤ 2)
  ∧ visited_urls Demo.after1 ⊆ visited_urls Demo.after3.
Proof.
  assert (state_after Demo.world (Demo.cfg 10 false) 2 "example.com" Demo.after1
          = Some Demo.after3) as H by (vm_compute; reflexivity).
  split; [exact H|].
  exact (X2_records_only_appended Demo.world (Demo.cfg 10 false) "example.com" 2 _ _ H).
Defined.

(** ** Which URLs a crawl visits *)

(** A property of URLs that the seed has and that every link kept by the
    scope test has holds of every queued URL and of the url of every
    record. *)
Lemma crawl_urls_invariant (W : World) (cfg : config) (base_domain : string)
    (P : string → Prop) :
  P (base_url cfg) →
  (∀ u l, l ∈ links (scrape_page W u) → in_scope W cfg base_domain l = true → P l) →
  ∀ n st, state_after W cfg n base_domain (fresh_state cfg) = Some st →
          Forall P (queue st) ∧ Forall (fun r => P (url r)) (scraped_data st).
Proof.
  intros Hseed Hlinks n st Hn.
  apply (state_after_ind W cfg base_domain
           (fun s => Forall P (queue s) ∧ Forall (fun r => P (url r)) (scraped_data s)))
    with (n := n) (st := fresh_state cfg); [| |exact Hn].
  - clear n st Hn. intros st st' [Hq Hd] Hc Hb.
    apply loop_cond_true in Hc as [(u & rest & Hqueue) _].
    rewrite (loop_body_cons W cfg base_domain st u rest Hqueue) in Hb.
    injection Hb as <-. rewrite Hqueue in Hq. apply Forall_cons in Hq as [Hu Hrest].
    destruct (bool_decide (u ∈ visited_urls st)); cbn; [auto|]. split.
    + apply Forall_app. split; [exact Hrest|].
      apply List.Forall_forall. intros l [Hl Hkeep]%List.filter_In.
      apply andb_prop in Hkeep as [_ Hscope].
      apply (Hlinks u); [apply list_elem_of_In, Hl|exact Hscope].
    + apply Forall_app. split; [exact Hd|].
      constructor; [|constructor]. rewrite scrape_page_url. exact Hu.
  - cbn. split; [|constructor]. constructor; [exact Hseed|constructor].
Qed.

(** X3: in a crawl started by the handler, the url of every record is the
    seed or a link found on a page recorded before it. *)
Theorem X3_records_come_from_earlier_links (W : World) (cfg : config)
    (base_domain : string) (n : nat) (st : session_state) :
  state_after W cfg n base_domain (fresh_state cfg) = Some st →
  ∀ before r later,
    scraped_data st = before ++ r :: later →
    url r = base_url cfg ∨ ∃ r', r' ∈ before ∧ url r ∈ links r'.
Proof.
  intros Hn.
  assert ((∀ u, u ∈ queue st →
             u = base_url cfg ∨ ∃ r', r' ∈ scraped_data st ∧ u ∈ links r')
          ∧ ∀ before r later,
              scraped_data st = before ++ r :: later →
              url r = base_url cfg ∨ ∃ r', r' ∈ before ∧ url r ∈ links r') as [_ H];
    [|exact H].
  apply (state_after_ind W cfg base_domain
           (fun s => (∀ u, u ∈ queue s →
                        u = base_url cfg ∨ ∃ r', r' ∈ scraped_data s ∧ u ∈ links r')
                     ∧ ∀ before r later,
                         scraped_data s = before ++ r :: later →
                         url r = base_url cfg ∨ ∃ r', r' ∈ before ∧ url r ∈ links r'))
    with (n := n) (st := fresh_state cfg); [| |exact Hn].
  - clear n st Hn. intros st st' [Hq Hd] Hc Hb.
    apply loop_cond_true in Hc as [(u & rest & Hqueue) _].
    rewrite (loop_body_cons W cfg base_domain st u rest Hqueue) in Hb.
    injection Hb as <-. rewrite Hqueue in Hq.
    destruct (bool_decide (u ∈ visited_urls st)); cbn.
    + split; [|exact Hd]. intros v Hv. apply Hq. right. exact Hv.
    + split.
      * intros v [Hv|Hv]%elem_of_app.
        -- destruct (Hq v) as [->|(r' & Hr' & Hin)]; [right; exact Hv|left; reflexivity|].
           right. exists r'. split; [apply elem_of_app; left; exact Hr'|exact Hin].
        -- right. exists (scrape_page W u). split.
           ++ apply elem_of_app. right. apply list_elem_of_singleton. reflexivity.
           ++ apply list_elem_of_In. apply list_elem_of_In in Hv.
              apply List.filter_In in Hv as [Hv _]. exact Hv.
      * intros before r later Hsplit.
        destruct later as [|x later _] using rev_ind.
        -- apply app_inj_tail in Hsplit as [<- <-]. rewrite scrape_page_url.
           apply Hq. left.
        -- rewrite app_comm_cons, app_assoc in Hsplit.
           apply app_inj_tail in Hsplit as [Hsplit _].
           exact (Hd before r later Hsplit).
  - cbn. split.
    + intros u ->%list_elem_of_singleton. left. reflexivity.
    + intros [|? before] r later Hsplit; discriminate.
Qed.

Lemma X3_witness :
  state_after Demo.world (Demo.cfg 10 false) 3 "example.com"
    (fresh_state (Demo.cfg 10 false)) = Some Demo.after3
  ∧ scraped_data Demo.after3
    = [scrape_page Demo.world "https://example.com"]
      ++ scrape_page Demo.world "https://example.com/"
      :: [scrape_page Demo.world "https://example.com#top"]
  ∧ (url (scrape_page Demo.world "https://example.com/") = base_url (Demo.cfg 10 false)
     ∨ ∃ r', r' ∈ [scrape_page Demo.world "https://example.com"]
             ∧ url (scrape_page Demo.world "https://example.com/") ∈ links r').
Proof.
  assert (state_after Demo.world (Demo.cfg 10 false) 3 "example.com"
            (fresh_state (Demo.cfg 10 false)) = Some Demo.after3) as H
    by (vm_compute; reflexivity).
  assert (scraped_data Demo.after3
          = [scrape_page Demo.world "https://example.com"]
            ++ scrape_page Demo.world "https://example.com/"
            :: [scrape_page Demo.world "https://example.com#top"]) as Hsplit
    by (vm_compute; reflexivity).
  split; [exact H|]. split; [exact Hsplit|].
  exact (X3_records_come_from_earlier_links Demo.world (Demo.cfg 10 false)
           "example.com" 3 _ H _ _ _ Hsplit).
Defined.

(** X4: in a crawl started by the handler on a valid seed, the url of every
    record is accepted by [is_valid_url]; and without [include_external] its
    host, as [get_domain] gives it, is the host of the seed. *)
Theorem X4_records_valid_and_on_seed_host (W : World) (cfg : config)
    (base_domain : string) (n : nat) (st : session_state) :
  is_valid_url W (base_url cfg) = true →
  get_domain W (base_url cfg) = Ok base_domain →
  state_after W cfg n base_domain (fresh_state cfg) = Some st →
  Forall (fun r => is_valid_url W (url r) = true) (scraped_data st)
  ∧ (include_external cfg = false →
     Forall (fun r => get_domain W (url r) = Ok base_domain) (scraped_data st)).
Proof.
  intros Hvalid Hdom Hn. split.
  - apply (crawl_urls_invariant W cfg base_domain (fun u => is_valid_url W u = true)
             Hvalid) with (n := n); [|exact Hn].
    intros u l Hl _. pose proof (scrape_page_links_valid W u) as Hall.
    rewrite Forall_forall in Hall. apply Hall, Hl.
  - intros Hext.
    apply (crawl_urls_invariant W cfg base_domain
             (fun u => get_domain W u = Ok base_domain) Hdom) with (n := n); [|exact Hn].
    intros u l _ Hscope. exact (in_scope_internal W cfg base_domain l Hext Hscope).
Qed.

Lemma X4_witness :
  is_valid_url Demo.world (base_url (Demo.cfg 10 false)) = true
  ∧ get_domain Demo.world (base_url (Demo.cfg 10 false)) = Ok "example.com"
  ∧ state_after Demo.world (Demo.cfg 10 false) 3 "example.com"
      (fresh_state (Demo.cfg 10 false)) = Some Demo.after3
  ∧ include_external (Demo.cfg 10 false) = false
  ∧ Forall (fun r => is_valid_url Demo.world (url r) = true) (scraped_data Demo.after3)
  ∧ Forall (fun r => get_domain Demo.world (url r) = Ok "example.com")
           (scraped_data Demo.after3).
Proof.
  assert (is_valid_url Demo.world (base_url (Demo.cfg 10 false)) = true) as Hv
    by (vm_compute; reflexivity).
  assert (get_domain Demo.world (base_url (Demo.cfg 10 false)) = Ok "example.com") as Hd
    by (vm_compute; reflexivity).
  assert (state_after Demo.world (Demo.cfg 10 false) 3 "example.com"
            (fresh_state (Demo.cfg 10 false)) = Some Demo.after3) as H
    by (vm_compute; reflexivity).
  destruct (X4_records_valid_and_on_seed_host Demo.world (Demo.cfg 10 false)
              "example.com" 3 _ Hv Hd H) as [Hall Hhost].
  split; [exact Hv|]. split; [exact Hd|]. split; [exact H|]. split; [reflexivity|].
  split; [exact Hall|exact (Hhost eq_refl)].
Defined.

(** X5: an iteration that visits [u] takes [u] off the head of the queue and
    appends, after what remains, links of the page of [u] only, none of
    which is visited at that moment; so a page that links to itself is not
    queued again by its own visit. *)
Theorem X5_visited_links_not_queued (W : World) (cfg : config) (base_domain : string)
    (st st' : session_state) (u : string) (rest : list string) :
  queue st = u :: rest → (u ∉ visited_urls st) →
  loop_body W cfg base_domain st = Ok st' →
  ∃ added, queue st' = rest ++ added
           ∧ Forall (fun l => l ∈ links (scrape_page W u)
                              ∧ (l ∉ visited_urls st') ∧ l ≠ u) added.
Proof.
  intros Hq Hu Hb. rewrite (loop_body_cons W cfg base_domain st u rest Hq) in Hb.
  rewrite bool_decide_eq_false_2 in Hb by assumption. injection Hb as <-. cbn.
  eexists. split; [reflexivity|].
  apply List.Forall_forall. intros l [Hl Hkeep]%List.filter_In.
  apply andb_prop in Hkeep as [Hnew _].
  apply negb_true_iff, bool_decide_eq_false in Hnew.
  split; [apply list_elem_of_In, Hl|]. split; [exact Hnew|].
  intros ->. apply Hnew, elem_of_union_l, elem_of_singleton. reflexivity.
Qed.

Lemma X5_witness :
  queue (fresh_state (Demo.cfg 10 false)) = [Demo.seed]
  ∧ (Demo.seed ∉ visited_urls (fresh_state (Demo.cfg 10 false)))
  ∧ loop_body Demo.world (Demo.cfg 10 false) "example.com"
      (fresh_state (Demo.cfg 10 false)) = Ok Demo.after1
  ∧ ∃ added, queue Demo.after1 = [] ++ added
             ∧ Forall (fun l => l ∈ links (scrape_page Demo.world Demo.seed)
                                ∧ (l ∉ visited_urls Demo.after1) ∧ l ≠ Demo.seed) added.
Proof.
  assert (Demo.seed ∉ visited_urls (fresh_state (Demo.cfg 10 false))) as Hu
    by (cbn; apply not_elem_of_empty).
  assert (loop_body Demo.world (Demo.cfg 10 false) "example.com"
            (fresh_state (Demo.cfg 10 false)) = Ok Demo.after1) as Hb
    by (vm_compute; reflexivity).
  split; [reflexivity|]. split; [exact Hu|]. split; [exact Hb|].
  exact (X5_visited_links_not_queued Demo.world (Demo.cfg 10 false) "example.com"
           (fresh_state (Demo.cfg 10 false)) Demo.after1 Demo.seed [] eq_refl Hu Hb).
Defined.

(** ** What the handler returns *)

Lemma budget_invariant (W : World) (cfg : config) (base_domain : string)
    (n : nat) (st : session_state) :
  state_after W cfg n base_domain (fresh_state cfg) = Some st →
  length (scraped_data st) = size (visited_urls st)
  ∧ size (visited_urls st) ≤ max_pages cfg.
Proof.
  intros Hn.
  apply (state_after_ind W cfg base_domain
           (fun s => length (scraped_data s) = size (visited_urls s)
                     ∧ size (visited_urls s) ≤ max_pages cfg))
    with (n := n) (st := fresh_state cfg); [| |exact Hn].
  - clear. intros st st' [Hlen Hle] Hc Hb.
    pose proof (loop_cond_true cfg st Hc) as [_ Hlt].
    destruct (loop_body_grows W cfg base_domain st st' Hc Hb)
      as [[-> ->] | (u & Hu & -> & ->)]; [auto|].
    rewrite length_app, size_union, size_singleton
      by (apply disjoint_singleton_l; exact Hu).
    cbn. lia.
  - cbn. rewrite size_empty. split; [reflexivity|lia].
Qed.

(** The first record of a crawl is the record of the seed. *)
Lemma first_record_is_seed (W : World) (cfg : config) (base_domain : string)
    (n : nat) (st : session_state) :
  state_after W cfg (S n) base_domain (fresh_state cfg) = Some st →
  ∃ others, scraped_data st = scrape_page W (base_url cfg) :: others.
Proof.
  cbn [state_after]. destruct (loop_cond cfg (fresh_state cfg)); [|discriminate].
  rewrite (loop_body_cons W cfg base_domain (fresh_state cfg) (base_url cfg) [])
    by reflexivity.
  rewrite bool_decide_eq_false_2 by (cbn; apply not_elem_of_empty).
  intros H. apply state_after_grows in H as ([new Hnew] & _ & _).
  exists new. exact Hnew.
Qed.

Lemma handler_result (W : World) (cfg : config) (fuel : nat)
    (st0 st' : session_state) (msg : ui_message) :
  base_url cfg ≠ "" → is_valid_url W (base_url cfg) = true →
  1 ≤ max_pages cfg →
  start_scraping W cfg fuel st0 = Some (Ok (st', msg)) →
  (∃ others, scraped_data st' = scrape_page W (base_url cfg) :: others)
  ∧ msg = st_success (length (scraped_data st'))
  ∧ 1 ≤ length (scraped_data st') ≤ max_pages cfg
  ∧ (queue st' = [] ∨ length (scraped_data st') = max_pages cfg).
Proof.
  intros Hne Hvalid Hmax Hrun.
  apply start_scraping_boundary in Hrun as (d & n & _ & Hn & Hstop & ->);
    [|assumption..].
  destruct (budget_invariant W cfg d n st' Hn) as [Hlen Hle].
  assert (∃ others, scraped_data st' = scrape_page W (base_url cfg) :: others)
    as [others Hfirst].
  { destruct n as [|n]; [|exact (first_record_is_seed W cfg d n st' Hn)].
    injection Hn as <-. unfold loop_cond in Hstop. cbn in Hstop.
    rewrite size_empty in Hstop. apply Nat.ltb_ge in Hstop. lia. }
  split; [eauto|]. split; [rewrite Hlen; reflexivity|]. split.
  - rewrite Hfirst in *. cbn in *. lia.
  - unfold loop_cond in Hstop. apply andb_false_iff in Hstop as [Hq|Hfull].
    + left. apply negb_false_iff, bool_decide_eq_true in Hq. exact Hq.
    + right. apply Nat.ltb_ge in Hfull. lia.
Qed.

(** X6: when the handler, given a valid seed and a budget of at least one
    page, returns, it shows the success message; the records start with the
    record of the seed, their number is the number in the message, lies
    between 1 and [max_pages], and falls short of [max_pages] only if the
    queue has been emptied. *)
Theorem X6_handler_result (W : World) (cfg : config) (fuel : nat)
    (st0 st' : session_state) (msg : ui_message) :
  base_url cfg ≠ "" → is_valid_url W (base_url cfg) = true →
  1 ≤ max_pages cfg →
  start_scraping W cfg fuel st0 = Some (Ok (st', msg)) →
  (∃ others, scraped_data st' = scrape_page W (base_url cfg) :: others)
  ∧ msg = st_success (length (scraped_data st'))
  ∧ 1 ≤ length (scraped_data st') ≤ max_pages cfg
  ∧ (queue st' = [] ∨ length (scraped_data st') = max_pages cfg).
Proof. apply handler_result. Qed.

Lemma X6_witness :
  base_url (Demo.cfg 3 false) ≠ ""
  ∧ is_valid_url Demo.world (base_url (Demo.cfg 3 false)) = true
  ∧ 1 ≤ max_pages (Demo.cfg 3 false)
  ∧ start_scraping Demo.world (Demo.cfg 3 false) 5 Demo.empty_state
    = Some (Ok (Demo.after3, st_success 3))
  ∧ (∃ others, scraped_data Demo.after3
               = scrape_page Demo.world (base_url (Demo.cfg 3 false)) :: others)
  ∧ st_success 3 = st_success (length (scraped_data Demo.after3))
  ∧ 1 ≤ length (scraped_data Demo.after3) ≤ max_pages (Demo.cfg 3 false)
  ∧ (queue Demo.after3 = []
     ∨ length (scraped_data Demo.after3) = max_pages (Demo.cfg 3 false)).
Proof.
  assert (base_url (Demo.cfg 3 false) ≠ "") as Hne by discriminate.
  assert (is_valid_url Demo.world (base_url (Demo.cfg 3 false)) = true) as Hv
    by (vm_compute; reflexivity).
  assert (1 ≤ max_pages (Demo.cfg 3 false)) as Hmax by (cbn; lia).
  assert (start_scraping Demo.world (Demo.cfg 3 false) 5 Demo.empty_state
          = Some (Ok (Demo.after3, st_success 3))) as Hrun by (vm_compute; reflexivity).
  split; [exact Hne|]. split; [exact Hv|]. split; [exact Hmax|]. split; [exact Hrun|].
  exact (X6_handler_result Demo.world (Demo.cfg 3 false) 5 _ _ _ Hne Hv Hmax Hrun).
Defined.

(** X7: with a budget of one page and a valid seed, the handler returns
    exactly the record of the seed, whatever the page is; the links of that
    page that are in scope and are not the seed are left in the queue,
    unvisited. *)
Theorem X7_budget_of_one_page (W : World) (cfg : config) (fuel : nat)
    (st0 : session_state) :
  base_url cfg ≠ "" → is_valid_url W (base_url cfg) = true →
  max_pages cfg = 1 → 1 ≤ fuel →
  ∃ d, get_domain W (base_url cfg) = Ok d
       ∧ start_scraping W cfg fuel st0
         = Some (Ok (mkState [scrape_page W (base_url cfg)] {[base_url cfg]}
                       (List.filter
                          (fun l => negb (String.eqb l (base_url cfg))
                                    && in_scope W cfg d l)
                          (links (scrape_page W (base_url cfg)))),
                     st_success 1)).
Proof.
  intros Hne Hvalid Hmax Hfuel.
  destruct (valid_get_domain W _ Hvalid) as (d & Hd & _).
  exists d. split; [exact Hd|].
  rewrite (start_scraping_valid W cfg fuel st0 d) by assumption.
  destruct fuel as [|fuel]; [lia|]. cbn [process_queue].
  rewrite (loop_cond_intro cfg (fresh_state cfg) (base_url cfg) [])
    by (cbn; rewrite ?size_empty; first [reflexivity | lia]).
  rewrite (loop_body_cons W cfg d (fresh_state cfg) (base_url cfg) []) by reflexivity.
  rewrite bool_decide_eq_false_2 by (cbn; apply not_elem_of_empty).
  cbn [fresh_state visited_urls scraped_data app].
  rewrite (List.filter_ext
             (fun l => negb (bool_decide (l ∈ ({[base_url cfg]} ∪ ∅ : gset string)))
                       && in_scope W cfg d l)
             (fun l => negb (String.eqb l (base_url cfg)) && in_scope W cfg d l)).
  - rewrite union_empty_r_L, process_queue_stop.
    + cbn [visited_urls]. rewrite size_singleton. reflexivity.
    + unfold loop_cond. cbn [visited_urls]. rewrite size_singleton, Hmax.
      apply andb_false_r.
  - intros l. f_equal. f_equal.
    destruct (String.eqb_spec l (base_url cfg)) as [->|Hneq].
    + apply bool_decide_eq_true, elem_of_union_l, elem_of_singleton. reflexivity.
    + apply bool_decide_eq_false. rewrite elem_of_union, elem_of_singleton.
      intros [Heq|Hin]; [contradiction|]. exact (not_elem_of_empty l Hin).
Qed.

Lemma X7_witness :
  base_url (Demo.cfg 1 false) ≠ ""
  ∧ is_valid_url Demo.world (base_url (Demo.cfg 1 false)) = true
  ∧ max_pages (Demo.cfg 1 false) = 1 ∧ 1 ≤ 4
  ∧ start_scraping Demo.world (Demo.cfg 1 false) 4 Demo.after3
    = Some (Ok (mkState [scrape_page Demo.world Demo.seed] {[Demo.seed]}
                  ["https://example.com/"; "https://example.com#top";
                   "https://example.com/about"; "https://example.com/missing"],
                st_success 1)).
Proof.
  assert (base_url (Demo.cfg 1 false) ≠ "") as Hne by discriminate.
  assert (is_valid_url Demo.world (base_url (Demo.cfg 1 false)) = true) as Hv
    by (vm_compute; reflexivity).
  assert (1 ≤ 4) as Hfuel by lia.
  split; [exact Hne|]. split; [exact Hv|]. split; [reflexivity|]. split; [exact Hfuel|].
  destruct (X7_budget_of_one_page Demo.world (Demo.cfg 1 false) 4 Demo.after3
              Hne Hv eq_refl Hfuel) as (d & Hd & ->).
  assert (d = "example.com") as -> by (vm_compute in Hd; congruence).
  vm_compute. reflexivity.
Defined.

(** ** What a record holds *)

(** X8: no record carries a status from 400 to 599: a response with such a
    status makes [raise_for_status] raise, and the record is the degraded
    one, with status 0 and the message of the HTTP error in its content;
    any other status is the status of the record, provided that nothing
    raises later in the [try]. *)
Theorem X8_http_error_status_not_recorded (W : World) (u : string) :
  ¬ (400 ≤ status (scrape_page W u) < 600)%Z
  ∧ (∀ r, requests_get W u = Ok r →
          (400 ≤ Requests.status_code r < 600)%Z →
          scrape_page W u
          = mkPage u (Some "Error") ("Error scraping page: " +:+ http_error_msg W r) [] 0)
  ∧ (∀ r page, requests_get W u = Ok r → scrape_try W u = Ok page →
               status page = Requests.status_code r
               ∧ ¬ (400 ≤ Requests.status_code r < 600)%Z).
Proof.
  assert (∀ r page, requests_get W u = Ok r → scrape_try W u = Ok page →
                    status page = Requests.status_code r
                    ∧ ¬ (400 ≤ Requests.status_code r < 600)%Z) as Hok.
  { intros r page Hget Hpage.
    apply scrape_try_Ok in Hpage as (r' & parsed & Hget' & Hstatus & _ & _ & ->).
    rewrite Hget in Hget'. injection Hget' as <-. split; [reflexivity|].
    unfold raise_for_status in Hstatus.
    destruct ((400 <=? Requests.status_code r) && (Requests.status_code r <? 600))%Z
      eqn:Hrange; [discriminate|].
    apply andb_false_iff in Hrange as [H|H]; [apply Z.leb_gt in H|apply Z.ltb_ge in H];
      lia. }
  split; [|split; [|exact Hok]].
  - unfold scrape_page. destruct (scrape_try W u) as [page|e] eqn:Hpage; [|cbn; lia].
    pose proof Hpage as (r & parsed & Hget & _)%scrape_try_Ok.
    destruct (Hok r page Hget eq_refl) as [-> Hrange]. exact Hrange.
  - intros r Hget Hrange. apply scrape_page_Raise. unfold scrape_try.
    rewrite Hget. cbn. unfold raise_for_status.
    replace ((400 <=? Requests.status_code r) && (Requests.status_code r <? 600))%Z
      with true; [reflexivity|].
    symmetry. apply andb_true_intro. split; [apply Z.leb_le|apply Z.ltb_lt]; lia.
Qed.

Lemma X8_witness :
  requests_get Demo.world "https://example.com/missing" = Ok (Requests.mkResponse "" 404)
  ∧ (400 ≤ Requests.status_code (Requests.mkResponse "" 404) < 600)%Z
  ∧ scrape_page Demo.world "https://example.com/missing"
    = mkPage "https://example.com/missing" (Some "Error")
        "Error scraping page: 404 Client Error: Not Found" [] 0
  ∧ requests_get Demo.world Demo.seed = Ok (Requests.mkResponse "home" 200)
  ∧ scrape_try Demo.world Demo.seed = Ok (scrape_page Demo.world Demo.seed)
  ∧ status (scrape_page Demo.world Demo.seed) = 200%Z.
Proof.
  assert (400 ≤ Requests.status_code (Requests.mkResponse "" 404) < 600)%Z as Hrange
    by (cbn; lia).
  assert (scrape_try Demo.world Demo.seed = Ok (scrape_page Demo.world Demo.seed)) as Hpage
    by (vm_compute; reflexivity).
  split; [reflexivity|]. split; [exact Hrange|]. split; [|split; [reflexivity|split]].
  - destruct (X8_http_error_status_not_recorded Demo.world "https://example.com/missing")
      as (_ & Herr & _).
    exact (Herr (Requests.mkResponse "" 404) eq_refl Hrange).
  - exact Hpage.
  - destruct (X8_http_error_status_not_recorded Demo.world Demo.seed) as (_ & _ & Hok).
    exact (proj1 (Hok (Requests.mkResponse "home" 200) _ eq_refl Hpage)).
Defined.

Lemma text_strings_app (a b : soup) :
  Bs4.text_strings (a ++ b) = Bs4.text_strings a ++ Bs4.text_strings b.
Proof.
  unfold Bs4.text_strings, Bs4.descendants. rewrite flat_map_app. apply omap_app.
Qed.

Lemma text_strings_tag (nm : string) (attrs : list (string * string)) (cs : list node) :
  Bs4.text_strings [Tag nm attrs cs] = Bs4.text_strings cs.
Proof.
  unfold Bs4.text_strings, Bs4.descendants. cbn [flat_map Bs4.subtree].
  rewrite app_nil_r. reflexivity.
Qed.

(** The text strings below the nodes that remain are text strings of the
    document, in the same order. *)
Lemma decompose_node_text (names : list string) (n : node) :
  Bs4.text_strings (Bs4.decompose_node names n) `sublist_of` Bs4.text_strings [n].
Proof.
  induction n as [nm attrs cs IH|s|s] using node_children_ind.
  - cbn [Bs4.decompose_node].
    destruct (existsb (String.eqb nm) names); [apply sublist_nil_l|].
    rewrite !text_strings_tag.
    induction IH as [|c cs Hc _ IHcs]; [reflexivity|].
    cbn [flat_map]. change (c :: cs) with ([c] ++ cs).
    rewrite !text_strings_app. apply sublist_app; assumption.
  - reflexivity.
  - reflexivity.
Qed.

Lemma decompose_node_unchanged (names : list string) (n : node) :
  List.filter (Bs4.named names) (Bs4.subtree n) = [] →
  Bs4.decompose_node names n = [n].
Proof.
  induction n as [nm attrs cs IH|s|s] using node_children_ind; [|reflexivity..].
  cbn [Bs4.subtree List.filter Bs4.named Bs4.decompose_node].
  destruct (existsb (String.eqb nm) names); [discriminate|].
  intros Hcs. do 2 f_equal.
  induction IH as [|c cs Hc _ IHcs]; [reflexivity|].
  cbn [flat_map] in *. rewrite List.filter_app in Hcs.
  apply app_eq_nil in Hcs as [Hhead Htail].
  rewrite (Hc Hhead), (IHcs Htail). reflexivity.
Qed.

(** X9: once the script and style elements are decomposed, [find_all] finds
    none of them in the document; the text strings that remain are text
    strings of the document in their order; and a document that has no such
    element is left as it is. *)
Theorem X9_script_and_style_removed (names : list string) (s : soup) :
  Bs4.find_all names (Bs4.decompose_all names s) = []
  ∧ Bs4.text_strings (Bs4.decompose_all names s) `sublist_of` Bs4.text_strings s
  ∧ (Bs4.find_all names s = [] → Bs4.decompose_all names s = s).
Proof.
  split; [apply decompose_all_clean|]. split.
  - unfold Bs4.decompose_all. induction s as [|n s IH]; [reflexivity|].
    cbn [flat_map]. change (n :: s) with ([n] ++ s).
    rewrite !text_strings_app. apply sublist_app; [|exact IH].
    apply decompose_node_text.
  - unfold Bs4.find_all, Bs4.descendants, Bs4.decompose_all.
    induction s as [|n s IH]; [reflexivity|].
    cbn [flat_map]. rewrite List.filter_app. intros [Hn Hs]%app_eq_nil.
    rewrite (decompose_node_unchanged names n Hn), (IH Hs). reflexivity.
Qed.

Lemma X9_witness :
  Bs4.find_all ["script"; "style"] Demo.about = []
  ∧ Bs4.decompose_all ["script"; "style"] Demo.about = Demo.about.
Proof.
  assert (Bs4.find_all ["script"; "style"] Demo.about = []) as H
    by (vm_compute; reflexivity).
  split; [exact H|].
  exact (proj2 (proj2 (X9_script_and_style_removed ["script"; "style"] Demo.about)) H).
Defined.

(** The loop over the anchors, in closed form: every href is resolved, and
    the resolved URLs that are valid are kept, in order. *)
Lemma extract_links_closed (W : World) (u : string) (anchors : list node)
    (ls : list string) :
  extract_links W u anchors = Ok ls →
  ∃ fulls,
    Forall2 (fun a full => ∃ href, Bs4.attr "href" a = Some href
                                   ∧ Urllib.urljoin W u href = Ok full)
            anchors fulls
    ∧ ls = List.filter (is_valid_url W) fulls.
Proof.
  revert ls. induction anchors as [|a anchors IH]; intros ls H; cbn in H.
  - injection H as <-. exists []. split; [constructor|reflexivity].
  - apply bind_Ok in H as (href & Hhref & H).
    apply bind_Ok in H as (full & Hjoin & H).
    apply bind_Ok in H as (more & Hmore & H).
    injection H as <-. destruct (IH _ Hmore) as (fulls & Hall & ->).
    exists (full :: fulls). split; [|reflexivity].
    constructor; [|exact Hall]. exists href. split; [|exact Hjoin].
    unfold Bs4.getitem in Hhref. destruct (Bs4.attr "href" a); [|discriminate].
    injection Hhref as ->. reflexivity.
Qed.

(** X10: the links of a page scraped without an exception are the hrefs of
    its anchors, each resolved against the url of the page, in document
    order, with the resolved URLs that are not valid left out and repeated
    ones kept; so there are at most as many links as anchors with an
    href. *)
Theorem X10_links_in_document_order (W : World) (u : string) (page : PageRecord) :
  scrape_try W u = Ok page →
  ∃ response parsed fulls,
    requests_get W u = Ok response
    ∧ html_parser W (Requests.content response) = Ok parsed
    ∧ Forall2 (fun a full => ∃ href, Bs4.attr "href" a = Some href
                                     ∧ Urllib.urljoin W u href = Ok full)
              (Bs4.find_all_with "a" "href"
                 (Bs4.decompose_all ["script"; "style"] parsed))
              fulls
    ∧ links page = List.filter (is_valid_url W) fulls
    ∧ length (links page)
      ≤ length (Bs4.find_all_with "a" "href"
                  (Bs4.decompose_all ["script"; "style"] parsed)).
Proof.
  intros (response & parsed & Hget & _ & Hparse & Hlinks & _)%scrape_try_Ok.
  cbn zeta in Hlinks.
  destruct (extract_links_closed W u _ _ Hlinks) as (fulls & Hall & Heq).
  exists response, parsed, fulls.
  split; [exact Hget|]. split; [exact Hparse|]. split; [exact Hall|].
  split; [exact Heq|].
  rewrite Heq, (Forall2_length _ _ _ Hall). apply List.filter_length_le.
Qed.

Lemma X10_witness :
  scrape_try Demo.world Demo.seed = Ok (scrape_page Demo.world Demo.seed)
  ∧ links (scrape_page Demo.world Demo.seed)
    = List.filter (is_valid_url Demo.world)
        ["https://example.com/"; "https://example.com#top"; "https://example.com/about";
         "https://example.com/missing"; "http://other.org/z"]
  ∧ length (links (scrape_page Demo.world Demo.seed))
    ≤ length (Bs4.find_all_with "a" "href"
                (Bs4.decompose_all ["script"; "style"] Demo.home)).
Proof.
  assert (scrape_try Demo.world Demo.seed = Ok (scrape_page Demo.world Demo.seed)) as Hpage
    by (vm_compute; reflexivity).
  split; [exact Hpage|].
  destruct (X10_links_in_document_order Demo.world Demo.seed _ Hpage)
    as (response & parsed & fulls & Hget & Hparse & _ & _ & Hlen).
  injection Hget as <-. injection Hparse as <-.
  split; [vm_compute; reflexivity|exact Hlen].
Defined.

Lemma extract_links_raises (W : World) (u : string) (anchors : list node)
    (a : node) (href e : string) :
  a ∈ anchors → Bs4.attr "href" a = Some href →
  Urllib.urljoin W u href = Raise e →
  ∃ e', extract_links W u anchors = Raise e'.
Proof.
  intros Hin Hhref Hjoin.
  induction anchors as [|b anchors IH]; [inversion Hin|].
  cbn [extract_links]. unfold Bs4.getitem.
  destruct (Bs4.attr "href" b) as [h|] eqn:Hb; cbn; [|eauto].
  destruct (Urllib.urljoin W u h) as [full|e1] eqn:Hjb; cbn; [|eauto].
  apply elem_of_cons in Hin as [->|Hin]; [congruence|].
  destruct (IH Hin) as [e' ->]. cbn. eauto.
Qed.

(** X11: when one href of a page makes [urljoin] raise, the page is not
    scraped with that link left out: the whole record is the degraded one,
    although the page was fetched and parsed. *)
Theorem X11_unparsable_href_degrades_page (W : World) (u : string)
    (response : Requests.response) (parsed : soup) (a : node) (href e : string) :
  requests_get W u = Ok response →
  raise_for_status W response = Ok tt →
  html_parser W (Requests.content response) = Ok parsed →
  a ∈ Bs4.find_all_with "a" "href" (Bs4.decompose_all ["script"; "style"] parsed) →
  Bs4.attr "href" a = Some href →
  Urllib.urljoin W u href = Raise e →
  ∃ e', scrape_page W u = mkPage u (Some "Error") ("Error scraping page: " +:+ e') [] 0.
Proof.
  intros Hget Hstatus Hparse Hin Hhref Hjoin.
  destruct (extract_links_raises W u _ a href e Hin Hhref Hjoin) as [e' Hraise].
  exists e'. apply scrape_page_Raise. unfold scrape_try.
  rewrite Hget. cbn. rewrite Hstatus. cbn. rewrite Hparse. cbn.
  rewrite Hraise. reflexivity.
Qed.

Lemma X11_witness :
  requests_get Broken.world "https://example.com" = Ok (Requests.mkResponse "page" 200)
  ∧ raise_for_status Broken.world (Requests.mkResponse "page" 200) = Ok tt
  ∧ html_parser Broken.world "page" = Ok Broken.page
  ∧ Tag "a" [("href", "http://[bad")] [NavigableString "broken"]
    ∈ Bs4.find_all_with "a" "href" (Bs4.decompose_all ["script"; "style"] Broken.page)
  ∧ Urllib.urljoin Broken.world "https://example.com" "http://[bad"
    = Raise "Invalid IPv6 URL"
  ∧ scrape_page Broken.world "https://example.com"
    = mkPage "https://example.com" (Some "Error")
        "Error scraping page: Invalid IPv6 URL" [] 0.
Proof.
  assert (Tag "a" [("href", "http://[bad")] [NavigableString "broken"]
          ∈ Bs4.find_all_with "a" "href"
              (Bs4.decompose_all ["script"; "style"] Broken.page)) as Hin
    by (vm_compute; right; left).
  assert (Urllib.urljoin Broken.world "https://example.com" "http://[bad"
          = Raise "Invalid IPv6 URL") as Hjoin by (vm_compute; reflexivity).
  split; [reflexivity|]. split; [reflexivity|]. split; [reflexivity|].
  split; [exact Hin|]. split; [exact Hjoin|].
  destruct (X11_unparsable_href_degrades_page Broken.world "https://example.com"
              (Requests.mkResponse "page" 200) Broken.page _ "http://[bad" _
              eq_refl eq_refl eq_refl Hin eq_refl Hjoin) as [e' He'].
  rewrite He'. vm_compute in He'. injection He' as <-. reflexivity.
Defined.

(** X12: the title of a page scraped without an exception is "No Title"
    when the document has no title element, is the text of the first title
    element when that element holds one text string and nothing else, and is
    [None] only when there is a title element whose [string] is [None]. *)
Theorem X12_title_of_scraped_page (W : World) (u : string) (page : PageRecord) :
  scrape_try W u = Ok page →
  ∃ response parsed,
    requests_get W u = Ok response
    ∧ html_parser W (Requests.content response) = Ok parsed
    ∧ let soup := Bs4.decompose_all ["script"; "style"] parsed in
      (Bs4.title soup = None → title page = Some "No Title")
      ∧ (∀ nm attrs t, Bs4.title soup = Some (Tag nm attrs [NavigableString t]) →
                       title page = Some t)
      ∧ (title page = None →
         ∃ element, Bs4.title soup = Some element ∧ Bs4.tag_string element = None).
Proof.
  intros (response & parsed & Hget & _ & Hparse & _ & ->)%scrape_try_Ok.
  exists response, parsed. split; [exact Hget|]. split; [exact Hparse|].
  cbn zeta. cbn [title].
  destruct (Bs4.title (Bs4.decompose_all ["script"; "style"] parsed)) as [element|].
  - split; [discriminate|]. split.
    + intros nm attrs t [= ->]. reflexivity.
    + intros Hnone. exists element. split; [reflexivity|exact Hnone].
  - split; [reflexivity|]. split; discriminate.
Qed.

Lemma X12_witness :
  scrape_try Demo.world Demo.seed = Ok (scrape_page Demo.world Demo.seed)
  ∧ Bs4.title (Bs4.decompose_all ["script"; "style"] Demo.home)
    = Some (Tag "title" [] [NavigableString "Home"])
  ∧ title (scrape_page Demo.world Demo.seed) = Some "Home".
Proof.
  assert (scrape_try Demo.world Demo.seed = Ok (scrape_page Demo.world Demo.seed)) as Hpage
    by (vm_compute; reflexivity).
  assert (Bs4.title (Bs4.decompose_all ["script"; "style"] Demo.home)
          = Some (Tag "title" [] [NavigableString "Home"])) as Htitle
    by (vm_compute; reflexivity).
  split; [exact Hpage|]. split; [exact Htitle|].
  destruct (X12_title_of_scraped_page Demo.world Demo.seed _ Hpage)
    as (response & parsed & Hget & Hparse & _ & Htext & _).
  injection Hget as <-. injection Hparse as <-.
  exact (Htext "title" [] "Home" Htitle).
Defined.

(** ** Valid URLs *)

Lemma break_spec (p : ascii → bool) (s a b : string) :
  PyStr.break p s = (a, b) →
  s = a +:+ b
  ∧ PyStr.forallb (fun c => negb (p c)) a = true
  ∧ (b = "" ∨ ∃ c t, b = String c t ∧ p c = true).
Proof.
  revert a b. induction s as [|c s IH]; intros a b H; cbn in H.
  - injection H as <- <-. auto.
  - destruct (p c) eqn:Hp.
    + injection H as <- <-. split; [reflexivity|]. split; [reflexivity|]. right. eauto.
    + destruct (PyStr.break p s) as [a' b'] eqn:Hb. injection H as <- <-.
      destruct (IH _ _ eq_refl) as (-> & Hall & Htail).
      split; [reflexivity|]. split; [cbn; rewrite Hp; exact Hall|exact Htail].
Qed.

Lemma break_app (p : ascii → bool) (a b : string) :
  PyStr.forallb (fun c => negb (p c)) a = true →
  (b = "" ∨ ∃ c t, b = String c t ∧ p c = true) →
  PyStr.break p (a +:+ b) = (a, b).
Proof.
  intros Ha Hb. induction a as [|c a IH].
  - change ("" +:+ b) with b. destruct Hb as [->|(c & t & -> & Hc)]; [reflexivity|].
    cbn. rewrite Hc. reflexivity.
  - cbn in Ha. apply andb_prop in Ha as [Hc Ha]. apply negb_true_iff in Hc.
    rewrite str_app_cons. cbn [PyStr.break]. rewrite Hc, (IH Ha). reflexivity.
Qed.

Lemma forallb_not_eqb (c : ascii) (s : string) :
  PyStr.forallb (fun d => negb (Ascii.eqb c d)) s = negb (PyStr.contains c s).
Proof.
  induction s as [|d s IH]; [reflexivity|]. cbn. rewrite IH.
  destruct (Ascii.eqb c d); reflexivity.
Qed.

Lemma partition_Some (c : ascii) (s a b : string) :
  PyStr.partition c s = Some (a, b) →
  s = a +:+ String c b ∧ PyStr.contains c a = false.
Proof.
  unfold PyStr.partition. destruct (PyStr.break (Ascii.eqb c) s) as [a' b'] eqn:Hb.
  destruct b' as [|d b']; [discriminate|]. intros [= <- <-].
  apply break_spec in Hb as (-> & Hall & [Hnil|(d' & t & [= <- <-] & Hd)]); [discriminate|].
  apply Ascii.eqb_eq in Hd as <-. split; [reflexivity|].
  rewrite forallb_not_eqb in Hall. apply negb_true_iff, Hall.
Qed.

Lemma partition_app (c : ascii) (a b : string) :
  PyStr.contains c a = false → PyStr.partition c (a +:+ String c b) = Some (a, b).
Proof.
  intros Ha. unfold PyStr.partition. rewrite break_app; [reflexivity| |].
  - rewrite forallb_not_eqb, Ha. reflexivity.
  - right. exists c, b. split; [reflexivity|apply Ascii.eqb_refl].
Qed.

Lemma contains_app_mid (c : ascii) (a b : string) :
  PyStr.contains c (a +:+ String c b) = true.
Proof.
  induction a as [|d a IH].
  - change ("" +:+ String c b) with (String c b). cbn.
    rewrite Ascii.eqb_refl. reflexivity.
  - rewrite str_app_cons. cbn. destruct (Ascii.eqb c d); [reflexivity|exact IH].
Qed.

Lemma contains_remove (c : ascii) (p : ascii → bool) (s : string) :
  PyStr.contains c (PyStr.remove p s) = true → PyStr.contains c s = true.
Proof.
  induction s as [|d s IH]; cbn; [auto|].
  destruct (p d); cbn; destruct (Ascii.eqb c d); auto.
Qed.

Lemma contains_lstrip (c : ascii) (p : ascii → bool) (s : string) :
  PyStr.contains c (PyStr.lstrip p s) = true → PyStr.contains c s = true.
Proof.
  induction s as [|d s IH]; cbn; [auto|].
  destruct (p d); cbn; destruct (Ascii.eqb c d); auto.
Qed.

Lemma take_2_slashes (s : string) :
  String.eqb (PyStr.take 2 s) "//" = true → s = "//" +:+ PyStr.drop 2 s.
Proof.
  destruct s as [|c1 [|c2 s]]; cbn [PyStr.take PyStr.drop];
    intros H%String.eqb_eq; try discriminate.
  injection H as -> ->. reflexivity.
Qed.

Lemma remove_id (p : ascii → bool) (s : string) :
  PyStr.forallb (fun c => negb (p c)) s = true → PyStr.remove p s = s.
Proof.
  induction s as [|c s IH]; [reflexivity|]. cbn.
  intros [Hc Hs]%andb_prop. apply negb_true_iff in Hc. rewrite Hc, (IH Hs). reflexivity.
Qed.

Lemma forallb_app (p : ascii → bool) (a b : string) :
  PyStr.forallb p (a +:+ b) = PyStr.forallb p a && PyStr.forallb p b.
Proof.
  induction a as [|c a IH]; [reflexivity|].
  rewrite str_app_cons. cbn. rewrite IH, andb_assoc. reflexivity.
Qed.

Lemma forallb_impl (p q : ascii → bool) (s : string) :
  (∀ c, p c = true → q c = true) →
  PyStr.forallb p s = true → PyStr.forallb q s = true.
Proof.
  intros Hpq. induction s as [|c s IH]; [reflexivity|]. cbn.
  intros [Hc Hs]%andb_prop. rewrite (Hpq c Hc), (IH Hs). reflexivity.
Qed.

(** What [urlsplit] makes of the scheme and of the network location. *)
Lemma urlsplit_scheme_netloc (W : World) (u : string) (sr : Urllib.SplitResult) :
  Urllib.urlsplit W u "" = Ok sr →
  Urllib.s_scheme sr ≠ "" → Urllib.s_netloc sr ≠ "" →
  ∃ c0 pre' rest tail,
    PyStr.partition ":" (cleaned u) = Some (String c0 pre', rest)
    ∧ PyStr.is_ascii_alpha c0 = true
    ∧ PyStr.forallb Urllib.scheme_char (String c0 pre') = true
    ∧ Urllib.s_scheme sr = PyStr.lower (String c0 pre')
    ∧ String.eqb (PyStr.take 2 rest) "//" = true
    ∧ Urllib.splitnetloc rest = (Urllib.s_netloc sr, tail).
Proof.
  intros H Hscheme Hnetloc. unfold Urllib.urlsplit in H.
  replace (PyStr.remove Urllib.unsafe_url_byte
             (PyStr.strip Urllib.c0_control_or_space "")) with "" in H by reflexivity.
  fold (cleaned u) in H.
  assert (∀ (sch url : string),
            (if String.eqb (PyStr.take 2 url) "//" then
               let '(netloc, rest) := Urllib.splitnetloc url in
               let lb := PyStr.contains "[" netloc in
               let rb := PyStr.contains "]" netloc in
               if (lb && negb rb) || (rb && negb lb) then Raise "Invalid IPv6 URL"
               else
                 _ ← (if lb && rb then Urllib.check_bracketed_netloc W netloc else Ok tt);
                 Ok (netloc, rest)
             else Ok ("", url))
            ≫= (λ '(netloc, url),
                  let '(url0, fragment) :=
                    match PyStr.partition "#" url with
                    | Some (a, b) => (a, b)
                    | None => (url, "")
                    end in
                  let '(url1, query) :=
                    match PyStr.partition "?" url0 with
                    | Some (a, b) => (a, b)
                    | None => (url0, "")
                    end in
                  _ ← Urllib.checknetloc W netloc;
                  Ok (Urllib.mkSplit sch netloc url1 query fragment)) = Ok sr →
            Urllib.s_scheme sr = sch
            ∧ (Urllib.s_netloc sr = ""
               ∨ String.eqb (PyStr.take 2 url) "//" = true
                 ∧ ∃ tail, Urllib.splitnetloc url = (Urllib.s_netloc sr, tail))) as Hrest.
  { clear. intros sch url H.
    apply bind_Ok in H as ([netloc url'] & Hn & H).
    assert (Urllib.s_scheme sr = sch ∧ Urllib.s_netloc sr = netloc) as [Hs Hnl].
    { destruct (PyStr.partition "#" url') as [[a b]|];
        destruct (PyStr.partition "?" _) as [[a' b']|];
        apply bind_Ok in H as ([] & _ & H); injection H as <-; split; reflexivity. }
    split; [exact Hs|]. rewrite Hnl. clear H Hs Hnl.
    destruct (String.eqb (PyStr.take 2 url) "//") eqn:Htake.
    - right. split; [reflexivity|].
      destruct (Urllib.splitnetloc url) as [n t]. cbn zeta in Hn.
      destruct (_ || _) in Hn; [discriminate|].
      apply bind_Ok in Hn as ([] & _ & Hn). injection Hn as <- <-. eauto.
    - left. injection Hn as <- _. reflexivity. }
  destruct (PyStr.partition ":" (cleaned u)) as [[pre rest]|] eqn:Hpart.
  - destruct pre as [|c0 pre'].
    + apply Hrest in H as [Hs _]. congruence.
    + destruct (PyStr.is_ascii_alpha c0
                && PyStr.forallb Urllib.scheme_char (String c0 pre')) eqn:Hc.
      * apply Hrest in H as [Hs [Hn|(Htake & tail & Hsplit)]]; [congruence|].
        apply andb_prop in Hc as [Halpha Hall].
        exists c0, pre', rest, tail. auto 10.
      * apply Hrest in H as [Hs _]. congruence.
  - apply Hrest in H as [Hs _]. congruence.
Qed.

Lemma urlparse_split (W : World) (u : string) (r : Urllib.ParseResult) :
  Urllib.urlparse W u = Ok r →
  ∃ sr, Urllib.urlsplit W u "" = Ok sr
        ∧ Urllib.scheme r = Urllib.s_scheme sr
        ∧ Urllib.netloc r = Urllib.s_netloc sr.
Proof.
  unfold Urllib.urlparse, Urllib.urlparse_with. intros H.
  apply bind_Ok in H as (sr & Hsr & H). exists sr. split; [exact Hsr|].
  destruct (_ && _) in H; [destruct (Urllib.splitparams _)|];
    injection H as <-; split; reflexivity.
Qed.

Lemma valid_url_shape (W : World) (u : string) :
  is_valid_url W u = true →
  ∃ c0 pre' host tail,
    cleaned u = String c0 pre' +:+ "://" +:+ host +:+ tail
    ∧ PyStr.is_ascii_alpha c0 = true
    ∧ PyStr.forallb Urllib.scheme_char (String c0 pre') = true
    ∧ host ≠ ""
    ∧ PyStr.forallb (fun c => negb (Urllib.netloc_delim c)) host = true
    ∧ (tail = "" ∨ ∃ c t, tail = String c t ∧ Urllib.netloc_delim c = true)
    ∧ get_domain W u = Ok host.
Proof.
  intros (r & Hr & Hscheme & Hnetloc)%is_valid_url_parse.
  destruct (urlparse_split W u r Hr) as (sr & Hsr & Hs & Hn).
  rewrite Hs in Hscheme. rewrite Hn in Hnetloc.
  destruct (urlsplit_scheme_netloc W u sr Hsr Hscheme Hnetloc)
    as (c0 & pre' & rest & tail & Hpart & Halpha & Hall & _ & Htake & Hsplit).
  apply partition_Some in Hpart as [Hclean _].
  apply take_2_slashes in Htake.
  unfold Urllib.splitnetloc in Hsplit.
  apply break_spec in Hsplit as (Hdrop & Hhost & Htail).
  exists c0, pre', (Urllib.s_netloc sr), tail.
  split; [|split; [exact Halpha|split; [exact Hall|split; [exact Hnetloc|
          split; [exact Hhost|split; [exact Htail|]]]]]].
  - rewrite Hclean, Htake, Hdrop. reflexivity.
  - unfold get_domain. rewrite Hr. cbn. rewrite Hn. reflexivity.
Qed.

Lemma no_colon_not_valid (W : World) (u : string) :
  PyStr.contains ":" u = false → is_valid_url W u = false.
Proof.
  intros Hno. destruct (is_valid_url W u) eqn:Hv; [|reflexivity].
  apply valid_url_shape in Hv as (c0 & pre' & host & tail & Hclean & _).
  assert (PyStr.contains ":" (cleaned u) = true) as Hc.
  { rewrite Hclean. apply (contains_app_mid ":" (String c0 pre')). }
  apply contains_remove, contains_lstrip in Hc. congruence.
Qed.

Lemma scheme_char_plain (c : ascii) :
  Urllib.scheme_char c = true →
  Ascii.eqb ":" c = false ∧ Urllib.unsafe_url_byte c = false.
Proof.
  destruct c as [[] [] [] [] [] [] [] []]; vm_compute; intros; try discriminate; auto.
Qed.

Lemma alpha_not_stripped (c : ascii) :
  PyStr.is_ascii_alpha c = true → Urllib.c0_control_or_space c = false.
Proof.
  destruct c as [[] [] [] [] [] [] [] []]; vm_compute; intros; try discriminate; auto.
Qed.

Lemma plain_host_char_spec (c : ascii) :
  plain_host_char c = true →
  (PyStr.code c <? 128)%N = true ∧ Urllib.netloc_delim c = false
  ∧ Ascii.eqb "[" c = false ∧ Ascii.eqb "]" c = false
  ∧ Urllib.unsafe_url_byte c = false.
Proof.
  destruct c as [[] [] [] [] [] [] [] []]; vm_compute; intros; try discriminate; auto 10.
Qed.


(** X13: a URL that [is_valid_url] accepts reads, once cleaned as
    [urlsplit] cleans it, as a scheme that starts with a letter, then "://",
    then a host that is not empty and has none of [/?#], then nothing or a
    rest that starts with one of [/?#]; and [get_domain] returns that host
    as it is written. *)
Theorem X13_valid_url_shape (W : World) (u : string) :
  is_valid_url W u = true →
  ∃ c0 pre' host tail,
    cleaned u = String c0 pre' +:+ "://" +:+ host +:+ tail
    ∧ PyStr.is_ascii_alpha c0 = true
    ∧ PyStr.forallb Urllib.scheme_char (String c0 pre') = true
    ∧ host ≠ ""
    ∧ PyStr.forallb (fun c => negb (Urllib.netloc_delim c)) host = true
    ∧ (tail = "" ∨ ∃ c t, tail = String c t ∧ Urllib.netloc_delim c = true)
    ∧ get_domain W u = Ok host.
Proof. apply valid_url_shape. Qed.

Lemma X13_witness :
  is_valid_url Demo.world " HTTPS://Example.com:8080/a b#c" = true
  ∧ ∃ c0 pre' host tail,
      cleaned " HTTPS://Example.com:8080/a b#c"
      = String c0 pre' +:+ "://" +:+ host +:+ tail
      ∧ PyStr.is_ascii_alpha c0 = true
      ∧ PyStr.forallb Urllib.scheme_char (String c0 pre') = true
      ∧ host ≠ ""
      ∧ PyStr.forallb (fun c => negb (Urllib.netloc_delim c)) host = true
      ∧ (tail = "" ∨ ∃ c t, tail = String c t ∧ Urllib.netloc_delim c = true)
      ∧ get_domain Demo.world " HTTPS://Example.com:8080/a b#c" = Ok host.
Proof.
  assert (is_valid_url Demo.world " HTTPS://Example.com:8080/a b#c" = true) as H
    by (vm_compute; reflexivity).
  split; [exact H|].
  exact (X13_valid_url_shape Demo.world _ H).
Defined.

(** X14: a string without a colon is never a valid URL: relative references
    and bare host names are rejected, whatever else they contain. *)
Theorem X14_no_colon_not_valid (W : World) (u : string) :
  PyStr.contains ":" u = false → is_valid_url W u = false.
Proof. apply no_colon_not_valid. Qed.

Lemma X14_witness :
  PyStr.contains ":" "www.example.com/index.html" = false
  ∧ is_valid_url Demo.world "www.example.com/index.html" = false.
Proof.
  assert (PyStr.contains ":" "www.example.com/index.html" = false) as H by reflexivity.
  split; [exact H|].
  exact (X14_no_colon_not_valid Demo.world _ H).
Defined.

(** X15: [is_valid_url] accepts any scheme, not only http and https: a
    scheme made of letters, digits and [+-.] that starts with a letter,
    followed by "://", a host of plain characters that is not empty, and
    nothing or a rest that starts with one of [/?#], is valid; and
    [get_domain] returns the host with its case, its user information and
    its port, unchanged. *)
Theorem X15_any_scheme_is_accepted (W : World) (c0 : ascii) (pre' host tail : string) :
  PyStr.is_ascii_alpha c0 = true →
  PyStr.forallb Urllib.scheme_char (String c0 pre') = true →
  host ≠ "" →
  PyStr.forallb plain_host_char host = true →
  (tail = "" ∨ ∃ c t, tail = String c t ∧ Urllib.netloc_delim c = true) →
  PyStr.forallb (fun c => negb (Urllib.unsafe_url_byte c)) tail = true →
  is_valid_url W (String c0 pre' +:+ "://" +:+ host +:+ tail) = true
  ∧ get_domain W (String c0 pre' +:+ "://" +:+ host +:+ tail) = Ok host.
Proof.
  intros Halpha Hscheme Hne Hhost Htail Hsafe.
  set (pre := String c0 pre') in *.
  set (u := pre +:+ "://" +:+ host +:+ tail).
  assert (cleaned u = u) as Hclean.
  { unfold cleaned. subst u pre. rewrite str_app_cons. cbn [PyStr.lstrip].
    rewrite (alpha_not_stripped c0 Halpha). rewrite <- str_app_cons.
    apply remove_id. rewrite forallb_app.
    apply andb_true_intro. split.
    - eapply forallb_impl; [|exact Hscheme]. intros c Hc.
      apply scheme_char_plain in Hc as [_ ->]. reflexivity.
    - change ("://" +:+ host +:+ tail)
        with (String ":" (String "/" (String "/" (host +:+ tail)))).
      cbn [PyStr.forallb]. rewrite forallb_app, Hsafe, andb_true_r.
      cbn. eapply forallb_impl; [|exact Hhost]. intros c Hc.
      apply plain_host_char_spec in Hc as (_ & _ & _ & _ & ->). reflexivity. }
  assert (PyStr.partition ":" u = Some (pre, "//" +:+ host +:+ tail)) as Hpart.
  { apply (partition_app ":" pre).
    rewrite <- (negb_involutive (PyStr.contains ":" pre)), <- forallb_not_eqb.
    apply negb_false_iff. eapply forallb_impl; [|exact Hscheme]. intros c Hc.
    apply scheme_char_plain in Hc as [-> _]. reflexivity. }
  assert (PyStr.break Urllib.netloc_delim (host +:+ tail) = (host, tail)) as Hbreak.
  { apply break_app; [|exact Htail]. eapply forallb_impl; [|exact Hhost]. intros c Hc.
    apply plain_host_char_spec in Hc as (_ & -> & _). reflexivity. }
  assert (PyStr.contains "[" host = false ∧ PyStr.contains "]" host = false) as [Hlb Hrb].
  { split; apply negb_true_iff; rewrite <- forallb_not_eqb;
      (eapply forallb_impl; [|exact Hhost]); intros c Hc;
      apply plain_host_char_spec in Hc as (_ & _ & H1 & H2 & _);
      rewrite ?H1, ?H2; reflexivity. }
  assert (Urllib.isascii host = true) as Hascii.
  { unfold Urllib.isascii. eapply forallb_impl; [|exact Hhost]. intros c Hc.
    apply plain_host_char_spec in Hc as (-> & _). reflexivity. }
  assert (∃ p q f, Urllib.urlsplit W u "" = Ok (Urllib.mkSplit (PyStr.lower pre) host p q f))
    as (p & q & f & Hsplit).
  { unfold Urllib.urlsplit.
    replace (PyStr.remove Urllib.unsafe_url_byte
               (PyStr.strip Urllib.c0_control_or_space "")) with "" by reflexivity.
    fold (cleaned u). rewrite Hclean, Hpart. subst pre. cbv beta iota.
    rewrite Halpha, Hscheme. cbn [andb]. cbv beta iota.
    change (PyStr.take 2 ("//" +:+ host +:+ tail)) with "//".
    rewrite String.eqb_refl. unfold Urllib.splitnetloc.
    change (PyStr.drop 2 ("//" +:+ host +:+ tail)) with (host +:+ tail).
    rewrite Hbreak. cbn zeta. rewrite Hlb, Hrb. cbn [andb orb negb].
    cbn [mbind res_bind].
    unfold Urllib.checknetloc. rewrite Hascii, orb_true_r.
    destruct (PyStr.partition "#" tail) as [[a b]|];
      destruct (PyStr.partition "?" _) as [[a' b']|]; cbn; eauto. }
  assert (∃ r, Urllib.urlparse W u = Ok r
               ∧ Urllib.scheme r = PyStr.lower pre ∧ Urllib.netloc r = host)
    as (r & Hr & Hs & Hn).
  { unfold Urllib.urlparse, Urllib.urlparse_with. rewrite Hsplit. cbn.
    destruct (_ && _); [destruct (Urllib.splitparams p)|]; eexists; repeat split. }
  split.
  - unfold is_valid_url. rewrite Hr, Hs, Hn. subst pre.
    destruct host; [contradiction|reflexivity].
  - unfold get_domain. rewrite Hr. cbn. rewrite Hn. reflexivity.
Qed.

Lemma X15_witness :
  PyStr.is_ascii_alpha "f" = true
  ∧ PyStr.forallb Urllib.scheme_char "ftp" = true
  ∧ "User@Example.COM:21" ≠ ""
  ∧ PyStr.forallb plain_host_char "User@Example.COM:21" = true
  ∧ is_valid_url Demo.offline "ftp://User@Example.COM:21/pub" = true
  ∧ get_domain Demo.offline "ftp://User@Example.COM:21/pub" = Ok "User@Example.COM:21".
Proof.
  assert ("User@Example.COM:21" ≠ "") as Hne by discriminate.
  split; [reflexivity|]. split; [reflexivity|]. split; [exact Hne|].
  split; [reflexivity|].
  apply (X15_any_scheme_is_accepted Demo.offline "f" "tp" "User@Example.COM:21" "/pub");
    [reflexivity|reflexivity|exact Hne|reflexivity| |reflexivity].
  right. exists "/"%char, "pub". split; reflexivity.
Defined.

(** ** What the script renders *)

Lemma filter_length_split {A : Type} (f : A → bool) (l : list A) :
  length l = length (List.filter f l) + length (List.filter (fun x => negb (f x)) l).
Proof.
  induction l as [|x l IH]; [reflexivity|]. cbn.
  destruct (f x); cbn; lia.
Qed.

(** X16: the three metrics of the summary add up: "Pages Scraped" is
    "Successful Requests" plus "Error Pages"; every degraded record (status
    0) is counted among the error pages, and so is every record with any
    status other than 200. *)
Theorem X16_metrics_add_up (data : list PageRecord) :
  pages_scraped (summary_metrics data)
  = successful_requests (summary_metrics data) + error_pages (summary_metrics data)
  ∧ length (List.filter (fun d => (status d =? 0)%Z) data)
    ≤ error_pages (summary_metrics data)
  ∧ ∀ d, d ∈ data → status d ≠ 200%Z →
         d ∈ List.filter (fun d => negb (status d =? 200)%Z) data
         ∧ 1 ≤ error_pages (summary_metrics data).
Proof.
  cbn. split; [apply filter_length_split|]. split.
  - induction data as [|d data IH]; [reflexivity|]. cbn.
    destruct (Z.eqb_spec (status d) 0) as [->|_]; cbn; [lia|].
    destruct (negb _); cbn; lia.
  - intros d Hd Hstatus.
    assert (d ∈ List.filter (fun d => negb (status d =? 200)%Z) data) as Hin.
    { apply list_elem_of_In, List.filter_In. split; [apply list_elem_of_In, Hd|].
      apply negb_true_iff, Z.eqb_neq, Hstatus. }
    split; [exact Hin|].
    destruct (List.filter _ data); [inversion Hin|cbn; lia].
Qed.

Lemma X16_witness :
  scrape_page Demo.world "https://example.com#top" ∈ scraped_data Demo.after3
  ∧ status (scrape_page Demo.world "https://example.com/missing") ≠ 200%Z
  ∧ summary_metrics (scraped_data Demo.after3
                     ++ [scrape_page Demo.world "https://example.com/missing"])
    = mkMetrics 4 3 1
  ∧ 1 ≤ error_pages (summary_metrics
                       (scraped_data Demo.after3
                        ++ [scrape_page Demo.world "https://example.com/missing"])).
Proof.
  assert (status (scrape_page Demo.world "https://example.com/missing") ≠ 200%Z) as Hs
    by (vm_compute; discriminate).
  split; [vm_compute; right; right; left|]. split; [exact Hs|].
  split; [vm_compute; reflexivity|].
  destruct (X16_metrics_add_up
              (scraped_data Demo.after3
               ++ [scrape_page Demo.world "https://example.com/missing"]))
    as (_ & _ & Herr).
  apply (Herr (scrape_page Demo.world "https://example.com/missing")); [|exact Hs].
  apply elem_of_app. right. apply list_elem_of_singleton. reflexivity.
Defined.

(** X17: the detailed view shows "No links found" exactly for a page
    without links; otherwise it shows the first ten links at most, in
    order, and "...and more" exactly when the page has more than ten, that
    is when some link is not shown. *)
Theorem X17_links_preview (ls : list string) :
  match links_preview ls with
  | no_links_found => ls = []
  | links_shown shown and_more =>
      ls ≠ []
      ∧ shown = firstn 10 ls
      ∧ shown `prefix_of` ls
      ∧ length shown = min 10 (length ls)
      ∧ (and_more = true ↔ 10 < length ls)
      ∧ (and_more = false ↔ shown = ls)
  end.
Proof.
  destruct ls as [|l ls]; [reflexivity|].
  cbn [links_preview]. set (full := l :: ls).
  split; [discriminate|]. split; [reflexivity|]. split; [|split; [|split]].
  - exists (skipn 10 full). symmetry. apply firstn_skipn.
  - apply length_firstn.
  - apply Nat.ltb_lt.
  - split.
    + intros H%Nat.ltb_ge. apply firstn_all2, H.
    + intros H. apply Nat.ltb_ge.
      apply (f_equal length) in H. rewrite length_firstn in H. lia.
Qed.

Lemma imap_detail_keys (data : list PageRecord) :
  area_key <$> imap detail data = seq 0 (length data).
Proof.
  apply list_eq. intros i.
  rewrite list_lookup_fmap, list_lookup_imap.
  destruct (data !! i) as [page|] eqn:Hi; cbn.
  - symmetry. apply lookup_seq. split; [reflexivity|].
    apply lookup_lt_Some in Hi. exact Hi.
  - symmetry. apply lookup_seq_ge. apply lookup_ge_None in Hi. exact Hi.
Qed.

(** X18: the results are rendered exactly when there is at least one
    record, otherwise the instructions are; in the results the table and the
    detailed view have one entry per record, in the order of the records,
    the Excel export receives all the records, and the keys of the text
    areas are 0, 1, 2, ..., so no two widgets share a key. *)
Theorem X18_results_rendered (st : session_state) :
  match render st with
  | instructions => scraped_data st = []
  | results_view m table details exported =>
      scraped_data st ≠ []
      ∧ exported = scraped_data st
      ∧ m = summary_metrics (scraped_data st)
      ∧ table = table_row <$> scraped_data st
      ∧ length details = length (scraped_data st)
      ∧ (∀ i page, scraped_data st !! i = Some page →
                   details !! i = Some (detail i page))
      ∧ area_key <$> details = seq 0 (length (scraped_data st))
      ∧ NoDup (area_key <$> details)
  end.
Proof.
  unfold render. destruct (scraped_data st) as [|d data] eqn:Hdata; [reflexivity|].
  rewrite <- Hdata. assert (scraped_data st ≠ []) as Hne by (rewrite Hdata; discriminate).
  split; [exact Hne|]. do 3 (split; [reflexivity|]).
  split; [apply length_imap|]. split; [|split].
  - intros i page Hi. rewrite list_lookup_imap, Hi. reflexivity.
  - apply imap_detail_keys.
  - rewrite imap_detail_keys. apply NoDup_seq.
Qed.

Lemma X17_witness :
  links_preview ["a1"; "a2"; "a3"; "a4"; "a5"; "a6"; "a7"; "a8"; "a9"; "a10"; "a11"]
  = links_shown ["a1"; "a2"; "a3"; "a4"; "a5"; "a6"; "a7"; "a8"; "a9"; "a10"] true
  ∧ (true = true ↔ 10 < length ["a1"; "a2"; "a3"; "a4"; "a5"; "a6"; "a7"; "a8"; "a9";
                                 "a10"; "a11"]).
Proof.
  split; [reflexivity|].
  pose proof (X17_links_preview
                ["a1"; "a2"; "a3"; "a4"; "a5"; "a6"; "a7"; "a8"; "a9"; "a10"; "a11"]) as H.
  cbn [links_preview] in H. destruct H as (_ & _ & _ & _ & Hmore & _). exact Hmore.
Defined.

Lemma X18_witness :
  scraped_data Demo.after3 !! 1 = Some (scrape_page Demo.world "https://example.com/")
  ∧ ∃ m table details exported,
      render Demo.after3 = results_view m table details exported
      ∧ details !! 1 = Some (detail 1 (scrape_page Demo.world "https://example.com/"))
      ∧ area_key <$> details = [0; 1; 2].
Proof.
  assert (scraped_data Demo.after3 !! 1
          = Some (scrape_page Demo.world "https://example.com/")) as Hi
    by (vm_compute; reflexivity).
  split; [exact Hi|].
  pose proof (X18_results_rendered Demo.after3) as H.
  destruct (render Demo.after3) as [m table details exported|] eqn:Hr.
  - exists m, table, details, exported.
    destruct H as (_ & _ & _ & _ & _ & Hdetail & Hkeys & _).
    split; [reflexivity|]. split; [exact (Hdetail 1 _ Hi)|exact Hkeys].
  - vm_compute in Hr. discriminate.
Defined.

(** ** One run of the script *)

(** X19: a click on the button with a valid seed and a budget of at least
    one page ends, for every world, with the success message and the
    results rendered, never the instructions; the "Pages Scraped" metric is
    the number in the message, between 1 and [max_pages]; and the outcome is
    the same whatever the session held before the click: the records of an
    earlier run are dropped, the records start with the seed. *)
Theorem X19_click_renders_results (W : World) (cfg : config) :
  base_url cfg ≠ "" → is_valid_url W (base_url cfg) = true →
  1 ≤ max_pages cfg →
  ∃ fuel st' table details others,
    (∀ raw fuel', fuel ≤ fuel' →
       script W cfg true fuel' raw
       = Some (Ok (st', Some (st_success (length (scraped_data st'))),
                   results_view (summary_metrics (scraped_data st')) table details
                                (scraped_data st'))))
    ∧ scraped_data st' = scrape_page W (base_url cfg) :: others
    ∧ pages_scraped (summary_metrics (scraped_data st')) = length (scraped_data st')
    ∧ 1 ≤ length (scraped_data st') ≤ max_pages cfg.
Proof.
  intros Hne Hvalid Hmax.
  destruct (valid_get_domain W _ Hvalid) as (d & Hd & _).
  destruct (process_queue_terminates W cfg d (fresh_state cfg)) as (fuel & st' & Hrun).
  assert (∀ st0 fuel', fuel ≤ fuel' →
            start_scraping W cfg fuel' st0
            = Some (Ok (st', st_success (size (visited_urls st'))))) as Hstart.
  { intros st0 fuel' Hle.
    rewrite (start_scraping_valid W cfg fuel' _ d) by assumption.
    rewrite (process_queue_more_fuel W cfg d fuel fuel' _ _ Hrun Hle). reflexivity. }
  destruct (handler_result W cfg fuel (fresh_state cfg) _ _ Hne Hvalid Hmax
              (Hstart _ fuel (le_n _)))
    as ([others Hfirst] & Hmsg & Hbounds & _).
  injection Hmsg as Hsize.
  exists fuel, st', (table_row <$> scraped_data st'),
         (imap detail (scraped_data st')), others.
  split; [|split; [exact Hfirst|split; [reflexivity|exact Hbounds]]].
  intros raw fuel' Hle. unfold script. rewrite (Hstart _ fuel' Hle), Hsize.
  unfold render. rewrite Hfirst. reflexivity.
Qed.

Lemma X19_witness :
  base_url (Demo.cfg 3 false) ≠ ""
  ∧ is_valid_url Demo.world (base_url (Demo.cfg 3 false)) = true
  ∧ 1 ≤ max_pages (Demo.cfg 3 false)
  ∧ ∃ fuel st' table details others,
      (∀ raw fuel', fuel ≤ fuel' →
         script Demo.world (Demo.cfg 3 false) true fuel' raw
         = Some (Ok (st', Some (st_success (length (scraped_data st'))),
                     results_view (summary_metrics (scraped_data st')) table details
                                  (scraped_data st'))))
      ∧ scraped_data st' = scrape_page Demo.world (base_url (Demo.cfg 3 false)) :: others
      ∧ pages_scraped (summary_metrics (scraped_data st')) = length (scraped_data st')
      ∧ 1 ≤ length (scraped_data st') ≤ max_pages (Demo.cfg 3 false).
Proof.
  assert (base_url (Demo.cfg 3 false) ≠ "") as Hne by discriminate.
  assert (is_valid_url Demo.world (base_url (Demo.cfg 3 false)) = true) as Hv
    by (vm_compute; reflexivity).
  assert (1 ≤ max_pages (Demo.cfg 3 false)) as Hmax by (cbn; lia).
  split; [exact Hne|]. split; [exact Hv|]. split; [exact Hmax|].
  exact (X19_click_renders_results Demo.world (Demo.cfg 3 false) Hne Hv Hmax).
Defined.

(** X20: a run of the script without a click, or with a click on an empty
    or invalid seed, leaves the session state as the three initialisations
    made it: the records of the last crawl are kept and rendered again (the
    instructions are shown only when there is no record), with no message
    in the first case and an error message in the second. *)
Theorem X20_no_crawl_keeps_results (W : World) (cfg : config) (pressed : bool)
    (fuel : nat) (raw : raw_session) :
  pressed = false ∨ base_url cfg = "" ∨ is_valid_url W (base_url cfg) = false →
  ∃ msg,
    script W cfg pressed fuel raw
    = Some (Ok (init_session raw, msg, render (init_session raw)))
    ∧ (pressed = false → msg = None)
    ∧ (pressed = true → ∃ e, msg = Some (st_error e))
    ∧ (∀ st, raw = to_raw st → init_session raw = st)
    ∧ (render (init_session raw) = instructions
       ↔ raw_scraped_data raw = None ∨ raw_scraped_data raw = Some []).
Proof.
  intros Hcase.
  assert (∀ st, raw = to_raw st → init_session raw = st) as Hround
    by (intros [data visited q] ->; reflexivity).
  assert (render (init_session raw) = instructions
          ↔ raw_scraped_data raw = None ∨ raw_scraped_data raw = Some []) as Hinstr.
  { unfold render, init_session. cbn [scraped_data].
    destruct (raw_scraped_data raw) as [[|d data]|]; cbn; split; auto;
      try discriminate; intros [H|H]; discriminate. }
  unfold script. destruct pressed.
  - assert (base_url cfg = "" ∨ is_valid_url W (base_url cfg) = false) as Hbad
      by (destruct Hcase as [H|H]; [discriminate|exact H]).
    assert (∃ e, start_scraping W cfg fuel (init_session raw)
                 = Some (Ok (init_session raw, st_error e))) as [e ->].
    { unfold start_scraping. destruct Hbad as [->| ->]; [eauto|].
      destruct (PyStr.is_empty (base_url cfg)); eauto. }
    exists (Some (st_error e)). split; [reflexivity|]. split; [discriminate|].
    split; [eauto|]. split; [exact Hround|exact Hinstr].
  - exists None. split; [reflexivity|]. split; [reflexivity|].
    split; [discriminate|]. split; [exact Hround|exact Hinstr].
Qed.

Lemma X20_witness :
  (true = false ∨ base_url (mkConfig "example.com" 10 false) = ""
   ∨ is_valid_url Demo.world (base_url (mkConfig "example.com" 10 false)) = false)
  ∧ ∃ msg,
      script Demo.world (mkConfig "example.com" 10 false) true 5 (to_raw Demo.after3)
      = Some (Ok (Demo.after3, msg, render Demo.after3))
      ∧ ∃ e, msg = Some (st_error e).
Proof.
  assert (true = false ∨ base_url (mkConfig "example.com" 10 false) = ""
          ∨ is_valid_url Demo.world (base_url (mkConfig "example.com" 10 false)) = false)
    as Hcase by (right; right; vm_compute; reflexivity).
  split; [exact Hcase|].
  destruct (X20_no_crawl_keeps_results Demo.world (mkConfig "example.com" 10 false)
              true 5 (to_raw Demo.after3) Hcase) as (msg & Hrun & _ & Herr & Hround & _).
  exists msg. rewrite (Hround Demo.after3 eq_refl) in Hrun.
  split; [exact Hrun|exact (Herr eq_refl)].
Defined.

(** ** The order of the visits *)

Lemma loop_body_queue (W : World) (cfg : config) (base_domain : string)
    (st st' : session_state) (u : string) (rest : list string) :
  queue st = u :: rest → loop_body W cfg base_domain st = Ok st' →
  ∃ added new,
    queue st' = rest ++ added
    ∧ scraped_data st' = scraped_data st ++ new
    ∧ (url <$> new) `sublist_of` [u].
Proof.
  intros Hq Hb. rewrite (loop_body_cons W cfg base_domain st u rest Hq) in Hb.
  injection Hb as <-. destruct (bool_decide (u ∈ visited_urls st)); cbn.
  - exists [], []. rewrite !app_nil_r. split; [reflexivity|]. split; [reflexivity|].
    apply sublist_nil_l.
  - eexists _, [scrape_page W u]. split; [reflexivity|]. split; [reflexivity|].
    cbn. rewrite scrape_page_url. reflexivity.
Qed.

(** X21: the queue is first in, first out.  Over [n] iterations the loop
    takes [n] URLs off the front of the queue, the URLs that were there
    first and then the ones it appended itself, in the order of their
    appending; and the new records are records of URLs taken off, in the
    order in which they were taken. *)
Theorem X21_first_in_first_out (W : World) (cfg : config) (base_domain : string)
    (n : nat) (st st' : session_state) :
  state_after W cfg n base_domain st = Some st' →
  ∃ added new,
    n ≤ length (queue st ++ added)
    ∧ queue st' = drop n (queue st ++ added)
    ∧ scraped_data st' = scraped_data st ++ new
    ∧ (url <$> new) `sublist_of` take n (queue st ++ added).
Proof.
  revert st. induction n as [|n IH]; intros st H; cbn [state_after] in H.
  - injection H as <-. exists [], []. rewrite !app_nil_r.
    split; [lia|]. split; [reflexivity|]. split; [reflexivity|]. apply sublist_nil_l.
  - destruct (loop_cond cfg st) eqn:Hc; [|discriminate].
    destruct (loop_body W cfg base_domain st) as [st1|e] eqn:Hb; [|discriminate].
    apply loop_cond_true in Hc as [(u & rest & Hq) _].
    destruct (loop_body_queue W cfg base_domain st st1 u rest Hq Hb)
      as (added0 & new0 & Hq1 & Hd1 & Hsub0).
    destruct (IH st1 H) as (added1 & new1 & Hlen & Hq' & Hd' & Hsub1).
    exists (added0 ++ added1), (new0 ++ new1).
    rewrite Hq1, <- app_assoc in Hlen, Hq', Hsub1. rewrite Hq.
    cbn [app length drop take]. split; [lia|]. split; [exact Hq'|]. split.
    + rewrite Hd', Hd1, app_assoc. reflexivity.
    + rewrite fmap_app. change (u :: ?l) with ([u] ++ l).
      apply sublist_app; assumption.
Qed.

Lemma X21_witness :
  state_after Demo.world (Demo.cfg 10 false) 3 "example.com"
    (fresh_state (Demo.cfg 10 false)) = Some Demo.after3
  ∧ ∃ added new,
      3 ≤ length (queue (fresh_state (Demo.cfg 10 false)) ++ added)
      ∧ queue Demo.after3 = drop 3 (queue (fresh_state (Demo.cfg 10 false)) ++ added)
      ∧ scraped_data Demo.after3 = scraped_data (fresh_state (Demo.cfg 10 false)) ++ new
      ∧ (url <$> new) `sublist_of` take 3 (queue (fresh_state (Demo.cfg 10 false)) ++ added).
Proof.
  assert (state_after Demo.world (Demo.cfg 10 false) 3 "example.com"
            (fresh_state (Demo.cfg 10 false)) = Some Demo.after3) as H
    by (vm_compute; reflexivity).
  split; [exact H|].
  exact (X21_first_in_first_out Demo.world (Demo.cfg 10 false) "example.com" 3 _ _ H).
Defined.
